(** * DataRow: the keyed record of the Data module (ts/Data/DataRow.ts)

    A shallow embedding of the class [DataRow] over an explicit object
    store, followed by the properties of its column API, its event-gated
    mutation protocol and its JSON serialisation. *)

From Stdlib Require Import ZArith Ascii.
From stdpp Require Import base option gmap strings list fin_maps pretty.

Open Scope string_scope.

(** ** The imports of DataRow.ts

    [DataTable], [DataConverter] and [DataJSON.getClass] are consumed through
    the narrow interface below; the row never looks inside them. *)
Class Imports := {
  (** the class DataTable, a nested table held by a column *)
  DataTable : Type;
  (** the class DataConverter, stored by the constructor *)
  DataConverter : Type;
  (** [new DataConverter()], the constructor's default second argument *)
  newDataConverter : DataConverter;
  (** [U.uniqueKey] draws its n-th key from this sequence *)
  uniqueKeyOf : nat → string;
}.

#[local] Set Warnings "-register-all".

(** A JSON tree: what a [DataRow.JSON] field can hold (primitives, a
    [DataTable.JSON] object, or an array of row objects). *)
Inductive JSONValue :=
  | JNull
  | JBoolean (b : bool)
  | JNumber (n : Z)
  | JString (s : string)
  | JArray (items : list JSONValue)
  | JObject (fields : list (string * JSONValue)).

(** The two entry points of DataTable that DataRow calls. *)
Class TableJSON `{Imports} := {
  (** [DataTable.prototype.toJSON] *)
  tableToJSON : DataTable → JSONValue;
  (** [DataTable.fromJSON], reached through [DataJSON.getClass('DataTable')] *)
  tableFromJSON : JSONValue → DataTable;
}.

Module DataRow.
Section Embedding.
Context `{TableJSON}.

(** [DataRow.ColumnTypes]: boolean|null|number|string|Date|DataTable|undefined.
    A number is carried as an integer: the row stores and copies numbers and
    never computes with them. A [Date] is carried by its time value, the
    number [getTime()] returns. *)
Inductive ColumnTypes :=
  | VUndefined
  | VNull
  | VBoolean (b : bool)
  | VNumber (n : Z)
  | VString (s : string)
  | VDate (time : Z)
  | VTable (table : DataTable).

(** What reading a property of a columns object gives: a value the object
    holds itself, or the member of that name which the object, being a plain
    object, inherits from [Object.prototype]. *)
Inductive Member :=
  | Own (value : ColumnTypes)
  | Inherited (name : string).

Coercion Own : ColumnTypes >-> Member.

(** [DataRow.Columns = Record<string, ColumnTypes>], a plain object used as a
    map: the own properties of the object. A key can be present with the
    value [undefined]. *)
Abbreviation Columns := (gmap string ColumnTypes).

(** [DataRow.JSON]: an object whose fields are JSON trees. *)
Abbreviation JSON := (gmap string JSONValue).

(** References into the object store. *)
Abbreviation loc := positive.

(** The payload handed to [fireEvent]: [{}] for the row events and
    [{ columnKey, columnValue }] for the column events. [deleteColumn] reads
    its [columnValue] off the columns object, so it can be an inherited
    member. *)
Inductive EventArgs :=
  | RowArgs
  | ColumnArgs (columnKey : string) (columnValue : Member).

(** [RowEventObject] and [ColumnEventObject]: the payload with its [type]. *)
Record EventObject := mkEvent {
  type : string;
  args : EventArgs;
}.

(** A listener sees the row's columns and the event object, and answers
    whether it cancels the event. Listeners are observers here: one that
    calls the row's own mutators while it is being notified is not
    described by this type. *)
Definition Listener : Type := Columns → EventObject → bool.

(** One entry of the listener registry kept on the row by [addEvent]. *)
Record Registration := mkRegistration {
  reg_token : nat;
  reg_type : string;
  reg_fn : Listener;
}.

(** The fields of a DataRow instance. [columns] is a reference to the
    columns object; [hcEvents] is the registry the notifier keeps on it. *)
Record t := mkRow {
  columns : loc;
  converter : DataConverter;
  id : string;
  hcEvents : list Registration;
}.

(** The store: the columns objects, the row instances, the counter behind
    [uniqueKey], the counter behind listener registrations, and the events
    published so far (oldest first) with their target. *)
Record Store := mkStore {
  colObjs : gmap loc Columns;
  rowObjs : gmap loc t;
  idCounter : nat;
  regCounter : nat;
  published : list (loc * EventObject);
}.

Definition with_colObjs (f : gmap loc Columns → gmap loc Columns) (s : Store) : Store :=
  mkStore (f (colObjs s)) (rowObjs s) (idCounter s) (regCounter s) (published s).

Definition with_rowObjs (f : gmap loc t → gmap loc t) (s : Store) : Store :=
  mkStore (colObjs s) (f (rowObjs s)) (idCounter s) (regCounter s) (published s).

(** ** The store monad

    A computation reads and writes the store and fails ([None]) only on a
    dangling reference. *)
Definition M (A : Type) : Type := Store → option (A * Store).

#[global] Instance M_ret : MRet M := λ A x s, Some (x, s).
#[global] Instance M_bind : MBind M := λ A B f c s,
  match c s with
  | Some (x, s') => f x s'
  | None => None
  end.

Notation "c1 ;; c2" := (mbind (λ _, c2) c1)
  (at level 100, c2 at level 200, right associativity).

(** The properties of [Object.prototype], which every plain object
    inherits. All are data properties that an assignment shadows with an own
    property, except the accessor [__proto__]. *)
Definition objectPrototypeNames : list string :=
  ["constructor"; "__defineGetter__"; "__defineSetter__"; "hasOwnProperty";
   "__lookupGetter__"; "__lookupSetter__"; "isPrototypeOf";
   "propertyIsEnumerable"; "toString"; "valueOf"; "__proto__";
   "toLocaleString"].

(** [obj[key]] when [obj] has no own property [key]: the inherited member
    for a name of [Object.prototype], [undefined] for any other key. *)
Definition absent (key : string) : Member :=
  if bool_decide (key ∈ objectPrototypeNames) then Inherited key
  else Own VUndefined.

(** [obj[key]]: the own property when there is one, else what the plain
    object inherits. *)
Definition get (obj : Columns) (key : string) : Member :=
  match obj !! key with
  | Some value => Own value
  | None => absent key
  end.

(** [obj[key] = value] on the own properties of a plain object. The key
    [__proto__], unless the object already has an own property of that name,
    reaches the accessor of [Object.prototype], which creates no own
    property whatever the value is. Any other key gets an own property.
    (Given null or an object, that accessor also swaps the prototype of
    [obj]; prototypes are not part of the store, where every object keeps
    [Object.prototype].) *)
Definition assign {V} (key : string) (value : V) (obj : gmap string V)
    : gmap string V :=
  match obj !! key with
  | Some _ => <[key := value]> obj
  | None => if String.eqb key "__proto__" then obj else <[key := value]> obj
  end.

Definition getRow (row : loc) : M t :=
  λ s, (λ o, (o, s)) <$> rowObjs s !! row.

Definition setRow (row : loc) (o : t) : M unit :=
  λ s, Some (tt, with_rowObjs <[row := o]> s).

Definition readObj (c : loc) : M Columns :=
  λ s, (λ obj, (obj, s)) <$> colObjs s !! c.

(** [obj[key] = value] and [delete obj[key]] on the object at [c]. *)
Definition updateObj (c : loc) (f : Columns → Columns) : M unit :=
  λ s, match colObjs s !! c with
       | Some obj => Some (tt, with_colObjs <[c := f obj]> s)
       | None => None
       end.

Definition setProperty (c : loc) (key : string) (value : ColumnTypes) : M unit :=
  updateObj c (assign key value).

Definition deleteProperty (c : loc) (key : string) : M unit :=
  updateObj c (delete key).

(** An object literal or [new]: a reference not in use yet. *)
Definition allocObj (obj : Columns) : M loc :=
  λ s, let c := fresh (dom (colObjs s)) in
       Some (c, with_colObjs <[c := obj]> s).

Definition allocRow (o : t) : M loc :=
  λ s, let r := fresh (dom (rowObjs s)) in
       Some (r, with_rowObjs <[r := o]> s).

(** [Object.keys(obj)] *)
Definition keys {V} (obj : gmap string V) : list string :=
  (map_to_list obj).*1.

(** [array.indexOf(x)], [-1] when [x] does not occur. *)
Fixpoint indexOfFrom (i : Z) (x : string) (array : list string) : Z :=
  match array with
  | [] => (-1)%Z
  | y :: rest => if String.eqb y x then i else indexOfFrom (i + 1)%Z x rest
  end.

Definition indexOf (array : list string) (x : string) : Z :=
  indexOfFrom 0%Z x array.

(** ** Core/Utilities, which is not part of this fragment *)

(** Modelled from the spec: [U.merge], the deep-copy utility. The copy is a
    new object holding the entries of the source; column values are
    immutable trees in this embedding, so copying the entries copies them
    deeply. *)
Definition merge (source : loc) : M loc :=
  obj ← readObj source;
  allocObj obj.

(** Modelled from the spec: [U.uniqueKey], the identity generator. Each call
    draws the next key of the sequence. *)
Definition uniqueKey : M string :=
  λ s, Some (uniqueKeyOf (idCounter s),
             mkStore (colObjs s) (rowObjs s) (S (idCounter s)) (regCounter s)
                     (published s)).

(** Modelled from the spec: the veto of the notifier. Every listener
    registered on the row for the event's type is called; the event is
    cancelled once one of them says so. *)
Definition defaultPrevented (o : t) (obj : Columns) (e : EventObject) : bool :=
  existsb (λ reg, String.eqb (reg_type reg) (type e) && reg_fn reg obj e)
          (hcEvents o).

(** The store after [events] have been published. *)
Definition emit (events : list (loc * EventObject)) (s : Store) : Store :=
  mkStore (colObjs s) (rowObjs s) (idCounter s) (regCounter s)
          (published s ++ events).

Definition publish (el : loc) (e : EventObject) : M unit :=
  λ s, Some (tt, emit [(el, e)] s).

(** Modelled from the spec: [U.fireEvent], the notifier's publish. The
    listeners of the event's type run first, inline; the default action runs
    afterwards unless a listener has cancelled the event. A default action in
    DataRow.ts assigns to a local of the method that passes it ([succeeded]):
    that captured local is threaded through as [captured]. *)
Definition fireEvent {L} (el : loc) (ty : string) (eventArguments : EventArgs)
    (defaultFunction : option (EventObject → L → M L)) (captured : L) : M L :=
  o ← getRow el;
  obj ← readObj (columns o);
  let e := mkEvent ty eventArguments in
  publish el e;;
  if defaultPrevented o obj e then mret captured
  else match defaultFunction with
       | Some f => f e captured
       | None => mret captured
       end.

(** Modelled from the spec: the unsubscribe function [U.addEvent] returns. It
    removes the one registration it was made for, and does nothing once that
    is gone. *)
Definition removeEvent (el : loc) (token : nat) : M unit :=
  o ← getRow el;
  setRow el (mkRow (columns o) (converter o) (id o)
                   (filter (λ reg, reg_token reg ≠ token) (hcEvents o))).

(** A token that no registration carries yet. *)
Definition nextToken : M nat :=
  λ s, Some (regCounter s,
             mkStore (colObjs s) (rowObjs s) (idCounter s) (S (regCounter s))
                     (published s)).

(** Modelled from the spec: [U.addEvent], the notifier's subscribe. The
    listener joins the registry kept on [el]. *)
Definition addEvent (el : loc) (ty : string) (fn : Listener) : M (M unit) :=
  o ← getRow el;
  token ← nextToken;
  setRow el (mkRow (columns o) (converter o) (id o)
                   (hcEvents o ++ [mkRegistration token ty fn]));;
  mret (removeEvent el token).

(** ** The class DataRow *)

(** [new DataRow(columns, converter)]; an argument left out is [None]. *)
Definition new (columns0 : option loc) (converter0 : option DataConverter) : M loc :=
  source ← match columns0 with
           | Some c => mret c
           | None => allocObj ∅
           end;
  let converter1 := default newDataConverter converter0 in
  c ← merge source;
  obj ← readObj c;
  id1 ← match get obj "id" with
        | Own (VString s) => mret s
        | _ => uniqueKey
        end;
  deleteProperty c "id";;
  allocRow (mkRow c converter1 id1 []).

Definition getColumnKeys (row : loc) : M (list string) :=
  o ← getRow row;
  obj ← readObj (columns o);
  mret (keys obj).

Definition getColumnCount (row : loc) : M nat :=
  ks ← getColumnKeys row;
  mret (length ks).

Definition getAllColumns (row : loc) : M loc :=
  o ← getRow row;
  merge (columns o).

Definition getColumn (row : loc) (columnKey : string) : M Member :=
  o ← getRow row;
  obj ← readObj (columns o);
  mret (get obj columnKey).

Definition clear (row : loc) : M bool :=
  let succeeded := false in
  fireEvent row "clearRow" RowArgs
    (Some (λ _ _,
       o ← getRow row;
       setProperty (columns o) "length" (VNumber 0);;
       let succeeded := true in
       fireEvent row "afterClearRow" RowArgs None succeeded))
    succeeded.

Definition deleteColumn (row : loc) (columnKey : string) : M bool :=
  o ← getRow row;
  obj ← readObj (columns o);
  let columnValue := get obj columnKey in
  let succeeded := false in
  if String.eqb columnKey "id" then mret succeeded
  else
    fireEvent row "deleteColumn" (ColumnArgs columnKey columnValue)
      (Some (λ e _,
         o ← getRow row;
         match args e with
         | ColumnArgs eKey _ => deleteProperty (columns o) eKey
         | RowArgs => mret tt
         end;;
         let succeeded := true in
         fireEvent row "afterDeleteColumn" (ColumnArgs columnKey columnValue)
                   None succeeded))
      succeeded.

Definition insertColumn (row : loc) (columnKey : string) (columnValue : ColumnTypes)
    : M bool :=
  let succeeded := false in
  if String.eqb columnKey "id" then mret succeeded
  else
    ks ← getColumnKeys row;
    if negb (indexOf ks columnKey =? -1)%Z then mret succeeded
    else
      fireEvent row "insertColumn" (ColumnArgs columnKey columnValue)
        (Some (λ _ _,
           o ← getRow row;
           setProperty (columns o) columnKey columnValue;;
           let succeeded := true in
           fireEvent row "afterInsertColumn" (ColumnArgs columnKey columnValue)
                     None succeeded))
        succeeded.

Definition on (row : loc) (event : string) (callback : Listener) : M (M unit) :=
  addEvent row event callback.

Definition updateColumn (row : loc) (columnKey : string) (columnValue : ColumnTypes)
    : M bool :=
  let succeeded := false in
  if String.eqb columnKey "id" then mret succeeded
  else
    fireEvent row "updateColumn" (ColumnArgs columnKey columnValue)
      (Some (λ _ _,
         o ← getRow row;
         setProperty (columns o) columnKey columnValue;;
         let succeeded := true in
         fireEvent row "afterUpdateColumn" (ColumnArgs columnKey columnValue)
                   None succeeded))
      succeeded.

(** The body of the [for] loop of [toJSON], over the keys still to visit.
    [columns1] is the copy [getAllColumns] returned; [json] is a plain object
    too, written with [assign]. A value that is neither null nor a Date is
    sent [toJSON()], which an inherited member does not have: the call
    throws. *)
Fixpoint toJSON_loop (columns1 : Columns) (columnKeys : list string) (json : JSON)
    : option JSON :=
  match columnKeys with
  | [] => Some json
  | key :: rest =>
      match get columns1 key with
      | Own VNull => toJSON_loop columns1 rest (assign key JNull json)
      | Own (VDate time) =>
          toJSON_loop columns1 rest (assign key (JNumber time) json)
      | Own (VTable table) =>
          toJSON_loop columns1 rest (assign key (tableToJSON table) json)
      | Inherited _ => None
      | Own VUndefined => toJSON_loop columns1 rest json
      | Own (VBoolean b) =>
          toJSON_loop columns1 rest (assign key (JBoolean b) json)
      | Own (VNumber n) =>
          toJSON_loop columns1 rest (assign key (JNumber n) json)
      | Own (VString s) =>
          toJSON_loop columns1 rest (assign key (JString s) json)
      end
  end.

(** A step that throws fails the computation. *)
Definition orThrow {A} (result : option A) : M A :=
  λ s, (λ x, (x, s)) <$> result.

Definition toJSON (row : loc) : M JSON :=
  c ← getAllColumns row;
  columns1 ← readObj c;
  o ← getRow row;
  let columnKeys := keys columns1 in
  let json : JSON :=
    <["id" := JString (id o)]> {["_DATA_CLASS_NAME_" := JString "DataRow"]} in
  orThrow (toJSON_loop columns1 columnKeys json).

(** [key[0] === '_'] *)
Definition startsWithUnderscore (key : string) : bool :=
  match key with
  | String c _ => Ascii.eqb c "_"%char
  | EmptyString => false
  end.

(** What [fromJSON] stores for a field: an array is wrapped into a table
    envelope and rebuilt, another object is rebuilt as a table, anything else
    is stored as it is. *)
Definition fromJSON_value (value : JSONValue) : ColumnTypes :=
  match value with
  | JArray _ =>
      VTable (tableFromJSON
                (JObject [("_DATA_CLASS_NAME_", JString "DataTable");
                          ("rows", value)]))
  | JObject _ => VTable (tableFromJSON value)
  | JNull => VNull
  | JBoolean b => VBoolean b
  | JNumber n => VNumber n
  | JString s => VString s
  end.

(** The [while] loop of [fromJSON]; [popped] lists the keys in the order
    [keys.pop()] hands them out. They are own keys of [json], so [json[key]]
    is the field of that name. *)
Fixpoint fromJSON_loop (json : JSON) (popped : list string) (columns1 : loc)
    : M unit :=
  match popped with
  | [] => mret tt
  | key :: rest =>
      if startsWithUnderscore key then fromJSON_loop json rest columns1
      else
        setProperty columns1 key
          match json !! key with
          | Some value => fromJSON_value value
          | None => VUndefined
          end;;
        fromJSON_loop json rest columns1
  end.

Definition fromJSON (json : JSON) : M loc :=
  columns1 ← allocObj ∅;
  fromJSON_loop json (reverse (keys json)) columns1;;
  new (Some columns1) None.

(** ** Vocabulary for the properties *)

(** [row] is a live DataRow instance in [s]: its fields are [o] and its
    columns object holds [obj]. *)
Definition row_at (s : Store) (row : loc) (o : t) (obj : Columns) : Prop :=
  rowObjs s !! row = Some o ∧ colObjs s !! columns o = Some obj.

(** What a mutator that has passed its guards does on a live row: when a
    listener cancels the pre-event, it answers [false] and only the pre-event
    has been published; otherwise it answers [true], the columns object has
    been changed by [f], and both events have been published. *)
Definition gated (s : Store) (row : loc) (o : t) (obj : Columns)
    (pre post : EventObject) (f : Columns → Columns) : option (bool * Store) :=
  if defaultPrevented o obj pre
  then Some (false, emit [(row, pre)] s)
  else Some (true,
             emit [(row, pre); (row, post)]
                  (with_colObjs <[columns o := f obj]> s)).

(** The id of the row at [row], read from the store. *)
Definition idOf (s : Store) (row : loc) : option string :=
  id <$> rowObjs s !! row.

(** A call of one of the four mutators. *)
Inductive Operation :=
  | InsertColumn (columnKey : string) (columnValue : ColumnTypes)
  | UpdateColumn (columnKey : string) (columnValue : ColumnTypes)
  | DeleteColumn (columnKey : string)
  | Clear.

Definition perform (row : loc) (op : Operation) : M bool :=
  match op with
  | InsertColumn k v => insertColumn row k v
  | UpdateColumn k v => updateColumn row k v
  | DeleteColumn k => deleteColumn row k
  | Clear => clear row
  end.

(** The guards of a mutator: whether it gives up before any event. *)
Definition rejected (obj : Columns) (op : Operation) : bool :=
  match op with
  | InsertColumn k _ => String.eqb k "id" || bool_decide (k ∈ keys obj)
  | UpdateColumn k _ | DeleteColumn k => String.eqb k "id"
  | Clear => false
  end.

(** The pre-event and the post-event of a mutator called on columns [obj]. *)
Definition preEvent (obj : Columns) (op : Operation) : EventObject :=
  match op with
  | InsertColumn k v => mkEvent "insertColumn" (ColumnArgs k v)
  | UpdateColumn k v => mkEvent "updateColumn" (ColumnArgs k v)
  | DeleteColumn k => mkEvent "deleteColumn" (ColumnArgs k (get obj k))
  | Clear => mkEvent "clearRow" RowArgs
  end.

Definition postEvent (obj : Columns) (op : Operation) : EventObject :=
  match op with
  | InsertColumn k v => mkEvent "afterInsertColumn" (ColumnArgs k v)
  | UpdateColumn k v => mkEvent "afterUpdateColumn" (ColumnArgs k v)
  | DeleteColumn k => mkEvent "afterDeleteColumn" (ColumnArgs k (get obj k))
  | Clear => mkEvent "afterClearRow" RowArgs
  end.

(** What the default action of a mutator does to the columns object. *)
Definition change (op : Operation) : Columns → Columns :=
  match op with
  | InsertColumn k v | UpdateColumn k v => assign k v
  | DeleteColumn k => delete k
  | Clear => assign "length" (VNumber 0)
  end.

(** What a caller can do to a mapping it holds a reference to: assign an
    entry (new or not) or remove one. *)
Inductive Mutation :=
  | Assign (key : string) (value : ColumnTypes)
  | Remove (key : string).

Definition mutate (c : loc) (m : Mutation) : M unit :=
  match m with
  | Assign key value => setProperty c key value
  | Remove key => deleteProperty c key
  end.

Fixpoint mutateAll (c : loc) (ms : list Mutation) : M unit :=
  match ms with
  | [] => mret tt
  | m :: rest => mutate c m;; mutateAll c rest
  end.

(** What [toJSON] writes for a column value; [None] when it writes nothing. *)
Definition written (value : ColumnTypes) : option JSONValue :=
  match value with
  | VUndefined => None
  | VNull => Some JNull
  | VBoolean b => Some (JBoolean b)
  | VNumber n => Some (JNumber n)
  | VString s => Some (JString s)
  | VDate time => Some (JNumber time)
  | VTable table => Some (tableToJSON table)
  end.

(** The object [toJSON] starts from. *)
Definition header (o : t) : JSON :=
  <["id" := JString (id o)]> {["_DATA_CLASS_NAME_" := JString "DataRow"]}.

(** boolean, null, number, string or Date *)
Definition primitiveOrDate (value : ColumnTypes) : bool :=
  match value with
  | VNull | VBoolean _ | VNumber _ | VString _ | VDate _ => true
  | VUndefined | VTable _ => false
  end.

(** A Date comes back from JSON as the number [getTime()] gave. *)
Definition decayed (value : ColumnTypes) : ColumnTypes :=
  match value with
  | VDate time => VNumber time
  | _ => value
  end.

(** What a column value is after [toJSON] and [fromJSON]: [None] when the
    column is gone. *)
Definition restored (value : ColumnTypes) : option ColumnTypes :=
  match value with
  | VUndefined => None
  | VDate time => Some (VNumber time)
  | VTable table => Some (VTable (tableFromJSON (tableToJSON table)))
  | VNull | VBoolean _ | VNumber _ | VString _ => Some value
  end.

(** null, a boolean, a number or a string *)
Definition primitiveJSON (value : JSONValue) : bool :=
  match value with
  | JNull | JBoolean _ | JNumber _ | JString _ => true
  | JArray _ | JObject _ => false
  end.

(** The key a mutator works on; [clear] assigns ["length"]. *)
Definition target (op : Operation) : string :=
  match op with
  | InsertColumn k _ | UpdateColumn k _ | DeleteColumn k => k
  | Clear => "length"
  end.

(** ** The typed getters

    The methods of the converter instance that the typed getters call, on
    whatever [getColumn] hands them. A Date result is carried by its time
    value, as in [ColumnTypes]. *)
Class Coercions := {
  asBoolean : DataConverter → Member → bool;
  asDataTable : DataConverter → Member → DataTable;
  asDate : DataConverter → Member → Z;
  asNumber : DataConverter → Member → Z;
  asString : DataConverter → Member → string;
}.

Context `{Coercions}.

Definition getColumnAsBoolean (row : loc) (columnKey : string) : M bool :=
  o ← getRow row;
  value ← getColumn row columnKey;
  mret (asBoolean (converter o) value).

Definition getColumnAsDataTable (row : loc) (columnKey : string) : M DataTable :=
  o ← getRow row;
  value ← getColumn row columnKey;
  mret (asDataTable (converter o) value).

Definition getColumnAsDate (row : loc) (columnKey : string) : M Z :=
  o ← getRow row;
  value ← getColumn row columnKey;
  mret (asDate (converter o) value).

Definition getColumnAsNumber (row : loc) (columnKey : string) : M Z :=
  o ← getRow row;
  value ← getColumn row columnKey;
  mret (asNumber (converter o) value).

Definition getColumnAsString (row : loc) (columnKey : string) : M string :=
  o ← getRow row;
  value ← getColumn row columnKey;
  mret (asString (converter o) value).

End Embedding.
End DataRow.

Coercion DataRow.Own : DataRow.ColumnTypes >-> DataRow.Member.

(** ** A concrete setting

    Tables and converters carry no data here; a table serialises to an empty
    table envelope. The stores below hold one row each. *)
Module Sample.

#[export] Instance imports : Imports := {|
  DataTable := unit;
  DataConverter := unit;
  newDataConverter := tt;
  uniqueKeyOf := λ n, "highcharts-" +:+ pretty n;
|}.

#[export] Instance table : TableJSON := {|
  tableToJSON := λ _,
    JObject [("_DATA_CLASS_NAME_", JString "DataTable"); ("rows", JArray [])];
  tableFromJSON := λ _, tt;
|}.

(** The row with id ["r"] and column [a = 1], at reference 1. *)
Definition rowFields : DataRow.t := DataRow.mkRow 1 tt "r" [].

Definition rowColumns : gmap string DataRow.ColumnTypes :=
  {["a" := DataRow.VNumber 1]}.

Definition store : DataRow.Store :=
  DataRow.mkStore {[1%positive := rowColumns]} {[1%positive := rowFields]} 0 0 [].

(** The same row with the column named [_a] instead. *)
Definition hiddenColumns : gmap string DataRow.ColumnTypes :=
  {["_a" := DataRow.VNumber 1]}.

Definition hidden : DataRow.Store :=
  DataRow.mkStore {[1%positive := hiddenColumns]} {[1%positive := rowFields]} 0 0 [].

(** A row with a number and a Date column. *)
Definition datedColumns : gmap string DataRow.ColumnTypes :=
  {["a" := DataRow.VNumber 1; "when" := DataRow.VDate 1577836800000]}.

Definition dated : DataRow.Store :=
  DataRow.mkStore {[1%positive := datedColumns]} {[1%positive := rowFields]} 0 0 [].

(** A listener that cancels whatever it is told about. *)
Definition cancelAll : DataRow.Listener := λ _ _, true.

(** The row of [store] once a listener that cancels is registered on it for
    [updateColumn]. *)
Definition guardedFields : DataRow.t :=
  DataRow.mkRow 1 tt "r" [DataRow.mkRegistration 0 "updateColumn" cancelAll].

Definition guarded : DataRow.Store :=
  DataRow.mkStore {[1%positive := rowColumns]} {[1%positive := guardedFields]} 0 1 [].

(** A converter that reads numbers and strings as they are and falls back
    to a fixed answer on anything else. *)
#[export] Instance coercions : DataRow.Coercions := {|
  DataRow.asBoolean := λ _ value,
    match value with DataRow.Own (DataRow.VBoolean b) => b | _ => false end;
  DataRow.asDataTable := λ _ _, tt;
  DataRow.asDate := λ _ value,
    match value with DataRow.Own (DataRow.VDate time) => time | _ => 0%Z end;
  DataRow.asNumber := λ _ value,
    match value with DataRow.Own (DataRow.VNumber n) => n | _ => 0%Z end;
  DataRow.asString := λ _ value,
    match value with
    | DataRow.Own (DataRow.VString x) => x
    | DataRow.Inherited name => name
    | _ => ""
    end;
|}.

(** A mapping a caller holds at reference 2, with a string id, and one with
    a number under [id]. *)
Definition callerColumns : gmap string DataRow.ColumnTypes :=
  {["id" := DataRow.VString "x"; "a" := DataRow.VNumber 1]}.

Definition numberedColumns : gmap string DataRow.ColumnTypes :=
  {["id" := DataRow.VNumber 7; "a" := DataRow.VNumber 1]}.

(** A row with a table, an [undefined] column and an underscore key. *)
Definition mixedColumns : gmap string DataRow.ColumnTypes :=
  {["a" := DataRow.VNumber 1; "t" := DataRow.VTable tt;
    "u" := DataRow.VUndefined; "_h" := DataRow.VBoolean true]}.

Definition mixed : DataRow.Store :=
  DataRow.mkStore {[1%positive := mixedColumns]} {[1%positive := rowFields]} 0 0 [].

(** What the row of [store] serialises to. *)
Definition rowJSON : gmap string JSONValue :=
  {["_DATA_CLASS_NAME_" := JString "DataRow"; "id" := JString "r";
    "a" := JNumber 1]}.

Definition caller : DataRow.Store :=
  DataRow.mkStore
    {[1%positive := rowColumns; 2%positive := callerColumns;
      3%positive := numberedColumns]}
    {[1%positive := rowFields]} 0 0 [].

End Sample.

(** ** Running the store monad *)
Section Running.
Context `{TableJSON}.

Lemma bind_run {A B} (c : DataRow.M A) (f : A → DataRow.M B) s x s' :
  c s = Some (x, s') → (c ≫= f) s = f x s'.
Proof. intros Hc. unfold mbind, DataRow.M_bind. by rewrite Hc. Qed.

(** [assign] is plain insertion except at a [__proto__] the object does not
    own. *)
Lemma assign_other {V} key (value : V) (obj : gmap string V) :
  key ≠ "__proto__" → DataRow.assign key value obj = <[key := value]> obj.
Proof.
  intros Hkey. unfold DataRow.assign.
  destruct (obj !! key); [done|]. by destruct (String.eqb_spec key "__proto__").
Qed.

Lemma assign_present {V} key (value : V) (obj : gmap string V) :
  is_Some (obj !! key) → DataRow.assign key value obj = <[key := value]> obj.
Proof. intros [held Hheld]. unfold DataRow.assign. by rewrite Hheld. Qed.

Lemma assign_proto {V} (value : V) (obj : gmap string V) :
  obj !! "__proto__" = None → DataRow.assign "__proto__" value obj = obj.
Proof. intros Hnone. unfold DataRow.assign. by rewrite Hnone. Qed.

Lemma lookup_assign_ne {V} key (value : V) (obj : gmap string V) k :
  k ≠ key → DataRow.assign key value obj !! k = obj !! k.
Proof.
  intros Hne. unfold DataRow.assign.
  destruct (obj !! key); [by rewrite lookup_insert_ne|].
  destruct (String.eqb key "__proto__"); [done | by rewrite lookup_insert_ne].
Qed.

Lemma absent_id : DataRow.absent "id" = DataRow.Own DataRow.VUndefined.
Proof. reflexivity. Qed.

Lemma get_own (obj : gmap string DataRow.ColumnTypes) k value :
  obj !! k = Some value → DataRow.get obj k = DataRow.Own value.
Proof. intros Hk. unfold DataRow.get. by rewrite Hk. Qed.


Lemma getRow_run s row o obj :
  DataRow.row_at s row o obj → DataRow.getRow row s = Some (o, s).
Proof. intros [Hr _]. unfold DataRow.getRow. by rewrite Hr. Qed.

Lemma readObj_run s row o obj :
  DataRow.row_at s row o obj → DataRow.readObj (DataRow.columns o) s = Some (obj, s).
Proof. intros [_ Hc]. unfold DataRow.readObj. by rewrite Hc. Qed.

Lemma row_at_emit s row o obj events :
  DataRow.row_at s row o obj → DataRow.row_at (DataRow.emit events s) row o obj.
Proof. by intros [Hr Hc]. Qed.

Lemma row_at_update s row o obj obj' :
  DataRow.row_at s row o obj →
  DataRow.row_at (DataRow.with_colObjs <[DataRow.columns o := obj']> s) row o obj'.
Proof. intros [Hr Hc]. split; [done | apply lookup_insert_eq]. Qed.

Lemma updateObj_run s row o obj f :
  DataRow.row_at s row o obj →
  DataRow.updateObj (DataRow.columns o) f s =
    Some (tt, DataRow.with_colObjs <[DataRow.columns o := f obj]> s).
Proof. intros [_ Hc]. unfold DataRow.updateObj. by rewrite Hc. Qed.

Lemma emit_emit events1 events2 s :
  DataRow.emit events2 (DataRow.emit events1 s) = DataRow.emit (events1 ++ events2) s.
Proof. unfold DataRow.emit. cbn. by rewrite app_assoc. Qed.

Lemma emit_update events f s :
  DataRow.with_colObjs f (DataRow.emit events s) =
  DataRow.emit events (DataRow.with_colObjs f s).
Proof. reflexivity. Qed.

(** One call of the notifier on a live row: the event is published, and the
    default action runs on the store that already holds it unless a listener
    cancels. *)
Lemma fireEvent_run {L} s row o obj ty a
    (df : option (DataRow.EventObject → L → DataRow.M L)) cap :
  DataRow.row_at s row o obj →
  DataRow.fireEvent row ty a df cap s =
    let e := DataRow.mkEvent ty a in
    let s1 := DataRow.emit [(row, e)] s in
    if DataRow.defaultPrevented o obj e then Some (cap, s1)
    else match df with
         | Some f => f e cap s1
         | None => Some (cap, s1)
         end.
Proof.
  intros Hat. unfold DataRow.fireEvent.
  rewrite (bind_run _ _ _ _ _ (getRow_run _ _ _ _ Hat)).
  rewrite (bind_run _ _ _ _ _ (readObj_run _ _ _ _ Hat)).
  cbn. by destruct (DataRow.defaultPrevented _ _ _), df.
Qed.

(** A post-event has no default action: it is published and nothing else
    happens, whatever its listeners answer. *)
Lemma post_event_run s row o obj ty a (cap : bool) :
  DataRow.row_at s row o obj →
  DataRow.fireEvent row ty a None cap s =
    Some (cap, DataRow.emit [(row, DataRow.mkEvent ty a)] s).
Proof.
  intros Hat. rewrite (fireEvent_run _ _ _ _ _ _ _ _ Hat). cbn.
  by destruct (DataRow.defaultPrevented _ _ _).
Qed.

(** The shape shared by the four default actions: change the columns object,
    then publish the post-event. *)
Lemma default_action_run s row o obj f ty a :
  DataRow.row_at s row o obj →
  (DataRow.getRow row ≫= λ o',
     DataRow.updateObj (DataRow.columns o') f ≫= λ _,
     DataRow.fireEvent row ty a None true) s =
    Some (true,
          DataRow.emit [(row, DataRow.mkEvent ty a)]
            (DataRow.with_colObjs <[DataRow.columns o := f obj]> s)).
Proof.
  intros Hat.
  rewrite (bind_run _ _ _ _ _ (getRow_run _ _ _ _ Hat)).
  rewrite (bind_run _ _ _ _ _ (updateObj_run _ _ _ _ f Hat)).
  by rewrite (post_event_run _ _ _ _ _ _ _ (row_at_update _ _ _ _ (f obj) Hat)).
Qed.

Lemma updateColumn_run s row o obj k v :
  DataRow.row_at s row o obj → k ≠ "id" →
  DataRow.updateColumn row k v s =
    DataRow.gated s row o obj
      (DataRow.mkEvent "updateColumn" (DataRow.ColumnArgs k v))
      (DataRow.mkEvent "afterUpdateColumn" (DataRow.ColumnArgs k v))
      (DataRow.assign k v).
Proof.
  intros Hat Hk. unfold DataRow.updateColumn, DataRow.gated.
  destruct (String.eqb_spec k "id") as [|_]; [done|].
  rewrite (fireEvent_run _ _ _ _ _ _ _ _ Hat). cbn.
  destruct (DataRow.defaultPrevented _ _ _); [done|].
  unfold DataRow.setProperty.
  rewrite (default_action_run _ _ _ _ _ _ _ (row_at_emit _ _ _ _ _ Hat)).
  by rewrite emit_update, emit_emit.
Qed.

Lemma elem_of_keys {V} (obj : gmap string V) k :
  k ∈ DataRow.keys obj ↔ is_Some (obj !! k).
Proof.
  unfold DataRow.keys. rewrite list_elem_of_fmap. split.
  - intros [[k' v] [-> Hin]]. apply elem_of_map_to_list in Hin. by exists v.
  - intros [v Hv]. exists (k, v). split; [done|]. by apply elem_of_map_to_list.
Qed.

Lemma not_elem_of_keys {V} (obj : gmap string V) k :
  k ∉ DataRow.keys obj ↔ obj !! k = None.
Proof. rewrite elem_of_keys, eq_None_not_Some. done. Qed.

Lemma indexOfFrom_absent i x array :
  (0 ≤ i)%Z → DataRow.indexOfFrom i x array = (-1)%Z ↔ x ∉ array.
Proof.
  revert i. induction array as [|y rest IH]; intros i Hi; cbn.
  - split; [intros _; apply not_elem_of_nil | done].
  - rewrite not_elem_of_cons. destruct (String.eqb_spec y x) as [->|Hne].
    + split; [lia | by intros [? _]].
    + rewrite IH by lia. split; [by intros ? | by intros [_ ?]].
Qed.

Lemma indexOf_absent array x :
  DataRow.indexOf array x = (-1)%Z ↔ x ∉ array.
Proof. by apply indexOfFrom_absent. Qed.

Lemma getColumnKeys_run s row o obj :
  DataRow.row_at s row o obj →
  DataRow.getColumnKeys row s = Some (DataRow.keys obj, s).
Proof.
  intros Hat. unfold DataRow.getColumnKeys.
  rewrite (bind_run _ _ _ _ _ (getRow_run _ _ _ _ Hat)).
  by rewrite (bind_run _ _ _ _ _ (readObj_run _ _ _ _ Hat)).
Qed.

Lemma getColumnCount_run s row o obj :
  DataRow.row_at s row o obj →
  DataRow.getColumnCount row s = Some (length (DataRow.keys obj), s).
Proof.
  intros Hat. unfold DataRow.getColumnCount.
  by rewrite (bind_run _ _ _ _ _ (getColumnKeys_run _ _ _ _ Hat)).
Qed.

Lemma getColumn_run s row o obj k :
  DataRow.row_at s row o obj →
  DataRow.getColumn row k s = Some (DataRow.get obj k, s).
Proof.
  intros Hat. unfold DataRow.getColumn.
  rewrite (bind_run _ _ _ _ _ (getRow_run _ _ _ _ Hat)).
  by rewrite (bind_run _ _ _ _ _ (readObj_run _ _ _ _ Hat)).
Qed.

Lemma insertColumn_id_run row v s :
  DataRow.insertColumn row "id" v s = Some (false, s).
Proof. reflexivity. Qed.

Lemma insertColumn_present_run s row o obj k v :
  DataRow.row_at s row o obj → k ∈ DataRow.keys obj →
  DataRow.insertColumn row k v s = Some (false, s).
Proof.
  intros Hat Hin. unfold DataRow.insertColumn.
  destruct (String.eqb k "id"); [done|].
  rewrite (bind_run _ _ _ _ _ (getColumnKeys_run _ _ _ _ Hat)).
  destruct (Z.eqb_spec (DataRow.indexOf (DataRow.keys obj) k) (-1)) as [Habs|_]; [|done].
  by apply indexOf_absent in Habs.
Qed.

Lemma insertColumn_run s row o obj k v :
  DataRow.row_at s row o obj → k ≠ "id" → k ∉ DataRow.keys obj →
  DataRow.insertColumn row k v s =
    DataRow.gated s row o obj
      (DataRow.mkEvent "insertColumn" (DataRow.ColumnArgs k v))
      (DataRow.mkEvent "afterInsertColumn" (DataRow.ColumnArgs k v))
      (DataRow.assign k v).
Proof.
  intros Hat Hk Hnew. unfold DataRow.insertColumn, DataRow.gated.
  destruct (String.eqb_spec k "id") as [|_]; [done|].
  rewrite (bind_run _ _ _ _ _ (getColumnKeys_run _ _ _ _ Hat)).
  destruct (Z.eqb_spec (DataRow.indexOf (DataRow.keys obj) k) (-1)) as [_|Hidx];
    [|by rewrite indexOf_absent in Hidx].
  cbn. rewrite (fireEvent_run _ _ _ _ _ _ _ _ Hat). cbn.
  destruct (DataRow.defaultPrevented _ _ _); [done|].
  unfold DataRow.setProperty.
  rewrite (default_action_run _ _ _ _ _ _ _ (row_at_emit _ _ _ _ _ Hat)).
  by rewrite emit_update, emit_emit.
Qed.

Lemma deleteColumn_id_run s row o obj :
  DataRow.row_at s row o obj → DataRow.deleteColumn row "id" s = Some (false, s).
Proof.
  intros Hat. unfold DataRow.deleteColumn.
  rewrite (bind_run _ _ _ _ _ (getRow_run _ _ _ _ Hat)).
  by rewrite (bind_run _ _ _ _ _ (readObj_run _ _ _ _ Hat)).
Qed.

Lemma deleteColumn_run s row o obj k :
  DataRow.row_at s row o obj → k ≠ "id" →
  DataRow.deleteColumn row k s =
    DataRow.gated s row o obj
      (DataRow.mkEvent "deleteColumn" (DataRow.ColumnArgs k (DataRow.get obj k)))
      (DataRow.mkEvent "afterDeleteColumn" (DataRow.ColumnArgs k (DataRow.get obj k)))
      (delete k).
Proof.
  intros Hat Hk. unfold DataRow.deleteColumn, DataRow.gated.
  rewrite (bind_run _ _ _ _ _ (getRow_run _ _ _ _ Hat)).
  rewrite (bind_run _ _ _ _ _ (readObj_run _ _ _ _ Hat)).
  destruct (String.eqb_spec k "id") as [|_]; [done|].
  rewrite (fireEvent_run _ _ _ _ _ _ _ _ Hat). cbn.
  destruct (DataRow.defaultPrevented _ _ _); [done|].
  unfold DataRow.deleteProperty.
  rewrite (default_action_run _ _ _ _ _ _ _ (row_at_emit _ _ _ _ _ Hat)).
  by rewrite emit_update, emit_emit.
Qed.

Lemma clear_run s row o obj :
  DataRow.row_at s row o obj →
  DataRow.clear row s =
    DataRow.gated s row o obj
      (DataRow.mkEvent "clearRow" DataRow.RowArgs)
      (DataRow.mkEvent "afterClearRow" DataRow.RowArgs)
      (DataRow.assign "length" (DataRow.VNumber 0)).
Proof.
  intros Hat. unfold DataRow.clear, DataRow.gated.
  rewrite (fireEvent_run _ _ _ _ _ _ _ _ Hat). cbn.
  destruct (DataRow.defaultPrevented _ _ _); [done|].
  unfold DataRow.setProperty.
  rewrite (default_action_run _ _ _ _ _ _ _ (row_at_emit _ _ _ _ _ Hat)).
  by rewrite emit_update, emit_emit.
Qed.

Lemma perform_run s row o obj op :
  DataRow.row_at s row o obj →
  DataRow.perform row op s =
    if DataRow.rejected obj op then Some (false, s)
    else DataRow.gated s row o obj (DataRow.preEvent obj op)
           (DataRow.postEvent obj op) (DataRow.change op).
Proof.
  intros Hat. destruct op as [k v|k v|k|]; cbn.
  - destruct (String.eqb_spec k "id") as [->|Hk]; [apply insertColumn_id_run|].
    cbn. case_bool_decide as Hin.
    + by apply insertColumn_present_run with o obj.
    + by apply insertColumn_run.
  - destruct (String.eqb_spec k "id") as [->|Hk]; [done|].
    by apply updateColumn_run.
  - destruct (String.eqb_spec k "id") as [->|Hk];
      [by apply deleteColumn_id_run with o obj|].
    by apply deleteColumn_run.
  - by apply clear_run.
Qed.

Lemma change_keeps_id_out (obj : gmap string DataRow.ColumnTypes) op :
  DataRow.rejected obj op = false →
  obj !! "id" = None → DataRow.change op obj !! "id" = None.
Proof.
  intros Hrej Hid. destruct op as [k v|k v|k|]; cbn in *.
  - apply orb_false_elim in Hrej as [Hk _].
    apply String.eqb_neq in Hk. by rewrite lookup_assign_ne.
  - apply String.eqb_neq in Hrej. by rewrite lookup_assign_ne.
  - apply String.eqb_neq in Hrej. by rewrite lookup_delete_ne.
  - by rewrite lookup_assign_ne.
Qed.

Lemma merge_run s row o obj :
  DataRow.row_at s row o obj →
  DataRow.merge (DataRow.columns o) s =
    Some (fresh (dom (DataRow.colObjs s)),
          DataRow.with_colObjs <[fresh (dom (DataRow.colObjs s)) := obj]> s).
Proof.
  intros Hat. unfold DataRow.merge.
  by rewrite (bind_run _ _ _ _ _ (readObj_run _ _ _ _ Hat)).
Qed.

Lemma getAllColumns_run s row o obj :
  DataRow.row_at s row o obj →
  DataRow.getAllColumns row s =
    Some (fresh (dom (DataRow.colObjs s)),
          DataRow.with_colObjs <[fresh (dom (DataRow.colObjs s)) := obj]> s).
Proof.
  intros Hat. unfold DataRow.getAllColumns.
  rewrite (bind_run _ _ _ _ _ (getRow_run _ _ _ _ Hat)).
  apply (merge_run _ _ _ _ Hat).
Qed.

Lemma fresh_ref_ne {V} (heap : gmap positive V) c :
  is_Some (heap !! c) → fresh (dom heap) ≠ c.
Proof.
  intros Hc Heq. apply elem_of_dom in Hc. rewrite <- Heq in Hc.
  by apply is_fresh in Hc.
Qed.

Lemma row_at_other s row o obj c obj' :
  c ≠ DataRow.columns o →
  DataRow.row_at s row o obj →
  DataRow.row_at (DataRow.with_colObjs <[c := obj']> s) row o obj.
Proof. intros Hne [Hr Hc]. split; [done|]. cbn. by rewrite lookup_insert_ne. Qed.

Lemma mutateAll_run ms s row o obj c :
  c ≠ DataRow.columns o →
  is_Some (DataRow.colObjs s !! c) →
  DataRow.row_at s row o obj →
  ∃ s2, DataRow.mutateAll c ms s = Some (tt, s2) ∧
        DataRow.row_at s2 row o obj ∧
        DataRow.rowObjs s2 = DataRow.rowObjs s.
Proof.
  intros Hne. revert s. induction ms as [|m rest IH]; intros s [held Hheld] Hat.
  - by exists s.
  - set (f := match m with
              | DataRow.Assign key value => DataRow.assign key value
              | DataRow.Remove key => delete key
              end : gmap string DataRow.ColumnTypes → gmap string DataRow.ColumnTypes).
    assert (DataRow.mutate c m s =
              Some (tt, DataRow.with_colObjs <[c := f held]> s)) as Hstep.
    { destruct m; cbn; unfold DataRow.setProperty, DataRow.deleteProperty,
        DataRow.updateObj; by rewrite Hheld. }
    destruct (IH (DataRow.with_colObjs <[c := f held]> s)) as (s2 & Hrun & Hat2 & Hrows).
    + cbn. rewrite lookup_insert_eq. by eexists.
    + by apply row_at_other.
    + exists s2. cbn. by rewrite (bind_run _ _ _ _ _ Hstep).
Qed.

Lemma new_run s columns0 converter0 src :
  match columns0 with
  | Some c0 => DataRow.colObjs s !! c0 = Some src
  | None => src = ∅
  end →
  ∃ row s' c id1,
    DataRow.new columns0 converter0 s = Some (row, s') ∧
    DataRow.row_at s' row
      (DataRow.mkRow c (default newDataConverter converter0) id1 [])
      (delete "id" src) ∧
    (∀ x, src !! "id" = Some (DataRow.VString x) → id1 = x).
Proof.
  intros Hsrc. unfold DataRow.new.
  assert (∃ source s0,
            match columns0 with
            | Some c0 => mret c0
            | None => DataRow.allocObj ∅
            end s = Some (source, s0) ∧
            DataRow.colObjs s0 !! source = Some src) as (source & s0 & Hfirst & Hsrc0).
  { destruct columns0 as [c0|].
    - by exists c0, s.
    - subst src. eexists _, _. split; [reflexivity|]. cbn. apply lookup_insert_eq. }
  rewrite (bind_run _ _ _ _ _ Hfirst). clear Hfirst Hsrc s.
  set (c := fresh (dom (DataRow.colObjs s0))).
  set (s1 := DataRow.with_colObjs <[c := src]> s0).
  assert (DataRow.merge source s0 = Some (c, s1)) as Hmerge.
  { unfold DataRow.merge, DataRow.readObj, mbind, DataRow.M_bind. by rewrite Hsrc0. }
  rewrite (bind_run _ _ _ _ _ Hmerge).
  assert (DataRow.colObjs s1 !! c = Some src) as Hc1 by apply lookup_insert_eq.
  assert (DataRow.readObj c s1 = Some (src, s1)) as Hread
    by (unfold DataRow.readObj; by rewrite Hc1).
  rewrite (bind_run _ _ _ _ _ Hread).
  assert (∃ id1 s2,
            match DataRow.get src "id" with
            | DataRow.Own (DataRow.VString x) => mret x
            | _ => DataRow.uniqueKey
            end s1 = Some (id1, s2) ∧
            DataRow.colObjs s2 = DataRow.colObjs s1 ∧
            (∀ x, src !! "id" = Some (DataRow.VString x) → id1 = x))
    as (id1 & s2 & Hid & Hcols & Hadopt).
  { unfold DataRow.get. destruct (src !! "id") as [[| | | |x| |]|]; cbn;
      eexists _, _; (split; [reflexivity|]); (split; [done|]); intros ?; congruence. }
  rewrite (bind_run _ _ _ _ _ Hid).
  unfold DataRow.deleteProperty, DataRow.updateObj, DataRow.allocRow, mbind,
    DataRow.M_bind.
  rewrite Hcols, Hc1. eexists _, _, c, id1. split; [reflexivity|].
  split; [|done]. split; cbn; apply lookup_insert_eq.
Qed.

Lemma on_run s row o obj event callback :
  DataRow.row_at s row o obj →
  ∃ unsubscribe s1,
    DataRow.on row event callback s = Some (unsubscribe, s1) ∧
    DataRow.row_at s1 row
      (DataRow.mkRow (DataRow.columns o) (DataRow.converter o) (DataRow.id o)
         (DataRow.hcEvents o ++
            [DataRow.mkRegistration (DataRow.regCounter s) event callback]))
      obj.
Proof.
  intros Hat. unfold DataRow.on, DataRow.addEvent.
  rewrite (bind_run _ _ _ _ _ (getRow_run _ _ _ _ Hat)).
  destruct Hat as [Hr Hc]. eexists _, _. split; [reflexivity|].
  split; cbn; [apply lookup_insert_eq | done].
Qed.

Lemma defaultPrevented_registered o obj e token callback :
  callback obj e = true →
  DataRow.defaultPrevented
    (DataRow.mkRow (DataRow.columns o) (DataRow.converter o) (DataRow.id o)
       (DataRow.hcEvents o ++
          [DataRow.mkRegistration token (DataRow.type e) callback]))
    obj e = true.
Proof.
  intros Hcancel. unfold DataRow.defaultPrevented. cbn.
  rewrite existsb_app. cbn. rewrite String.eqb_refl, Hcancel. cbn.
  by rewrite orb_true_r.
Qed.

End Running.

(** ** The column API *)
Section ColumnAPI.
Context `{TableJSON}.

(** C3: on every row and for every value, [insertColumn("id", v)],
    [updateColumn("id", v)] and [deleteColumn("id")] answer [false] and hand
    back the store they were given: no event has been published, and the
    columns and the id are as before. *)
Theorem id_key_rejected s row o obj v :
  DataRow.row_at s row o obj →
  DataRow.insertColumn row "id" v s = Some (false, s) ∧
  DataRow.updateColumn row "id" v s = Some (false, s) ∧
  DataRow.deleteColumn row "id" s = Some (false, s).
Proof.
  intros Hat. split; [apply insertColumn_id_run|].
  split; [reflexivity|]. apply (deleteColumn_id_run _ _ _ _ Hat).
Qed.


(** C7: deleting a column that is not there. With [k] not ["id"], absent
    from the row, and no listener cancelling, [deleteColumn(k)] answers
    [true] and publishes exactly the pre-event [deleteColumn] and then the
    post-event [afterDeleteColumn], both with what reading [k] gave before
    the call; every columns object and every row of the store is as it was,
    so the column mapping is unchanged. *)
Theorem deleteColumn_absent s row o obj k :
  DataRow.row_at s row o obj →
  k ≠ "id" →
  k ∉ DataRow.keys obj →
  DataRow.defaultPrevented o obj
    (DataRow.mkEvent "deleteColumn" (DataRow.ColumnArgs k (DataRow.get obj k))) = false →
  ∃ s1,
    DataRow.deleteColumn row k s = Some (true, s1) ∧
    DataRow.published s1 =
      (DataRow.published s ++
         [(row, DataRow.mkEvent "deleteColumn"
                  (DataRow.ColumnArgs k (DataRow.get obj k)));
          (row, DataRow.mkEvent "afterDeleteColumn"
                  (DataRow.ColumnArgs k (DataRow.get obj k)))])%list ∧
    DataRow.colObjs s1 = DataRow.colObjs s ∧
    DataRow.rowObjs s1 = DataRow.rowObjs s ∧
    DataRow.row_at s1 row o obj.
Proof.
  intros Hat Hk Habsent Hveto. apply not_elem_of_keys in Habsent.
  rewrite (deleteColumn_run _ _ _ _ _ Hat Hk). unfold DataRow.gated.
  rewrite Hveto, delete_id by done. eexists. split; [done|].
  destruct Hat as [Hr Hc]. unfold DataRow.row_at. cbn.
  rewrite (insert_id _ _ _ Hc). done.
Qed.


(** C1, as the code has it: [clear()] with no listener cancelling answers
    [true] and publishes both events, yet its default action assigns the
    property ["length"] of the columns object and removes nothing. Every
    column is still there, ["length"] is a column holding 0, and
    [getColumnCount()] is at least 1; the id is unchanged. *)
Theorem clear_assigns_length s row o obj :
  DataRow.row_at s row o obj →
  DataRow.defaultPrevented o obj (DataRow.mkEvent "clearRow" DataRow.RowArgs) = false →
  ∃ s1 n,
    DataRow.clear row s = Some (true, s1) ∧
    DataRow.row_at s1 row o (<["length" := DataRow.VNumber 0]> obj) ∧
    DataRow.getColumnCount row s1 = Some (n, s1) ∧
    (1 ≤ n)%nat ∧ (size obj ≤ n)%nat ∧
    DataRow.idOf s1 row = DataRow.idOf s row.
Proof.
  intros Hat Hveto. rewrite (clear_run _ _ _ _ Hat). unfold DataRow.gated.
  rewrite Hveto, (assign_other "length" (DataRow.VNumber 0) obj) by done.
  eexists _, _. split; [done|].
  assert (DataRow.row_at
            (DataRow.emit
               [(row, DataRow.mkEvent "clearRow" DataRow.RowArgs);
                (row, DataRow.mkEvent "afterClearRow" DataRow.RowArgs)]
               (DataRow.with_colObjs
                  <[DataRow.columns o := <["length" := DataRow.VNumber 0]> obj]> s))
            row o (<["length" := DataRow.VNumber 0]> obj)) as Hat1
    by (apply row_at_emit; by apply row_at_update with obj).
  split; [done|]. rewrite (getColumnCount_run _ _ _ _ Hat1).
  split; [done|].
  assert (length (DataRow.keys (<["length" := DataRow.VNumber 0]> obj)) =
          size (<["length" := DataRow.VNumber 0]> obj)) as ->
    by (unfold DataRow.keys; by rewrite length_fmap, length_map_to_list).
  split; [|split; [|done]].
  - destruct (obj !! "length") eqn:Hl.
    + rewrite map_size_insert_Some by done.
      assert (size obj ≠ 0); [|lia].
      intros ->%map_size_empty_iff. by rewrite lookup_empty in Hl.
    + rewrite map_size_insert_None by done. lia.
  - destruct (obj !! "length") eqn:Hl.
    + by rewrite map_size_insert_Some.
    + rewrite map_size_insert_None by done. lia.
Qed.

(** C4: the key ["id"] is never a column and the id never changes. The
    constructor, given no columns or a reference to a mapping that exists,
    returns a row whose keys exclude ["id"]; and each of [insertColumn],
    [updateColumn], [deleteColumn] and [clear], called on a row whose keys
    exclude ["id"], returns, leaves the keys excluding ["id"], and leaves the
    row's fields, so its id, as they were. *)
Theorem id_never_a_column :
  (∀ s columns0 converter0,
     (∀ c, columns0 = Some c → is_Some (DataRow.colObjs s !! c)) →
     ∃ row s1 ks,
       DataRow.new columns0 converter0 s = Some (row, s1) ∧
       DataRow.getColumnKeys row s1 = Some (ks, s1) ∧
       "id" ∉ ks) ∧
  (∀ s row o obj op,
     DataRow.row_at s row o obj →
     "id" ∉ DataRow.keys obj →
     ∃ b s1 ks,
       DataRow.perform row op s = Some (b, s1) ∧
       DataRow.getColumnKeys row s1 = Some (ks, s1) ∧
       ("id" ∉ ks) ∧
       DataRow.idOf s1 row = DataRow.idOf s row).
Proof.
  split.
  - intros s columns0 converter0 Hvalid.
    assert (∃ src, match columns0 with
                   | Some c0 => DataRow.colObjs s !! c0 = Some src
                   | None => src = ∅
                   end) as [src Hsrc].
    { destruct columns0 as [c0|]; [|by exists ∅]. by apply Hvalid. }
    destruct (new_run _ _ converter0 _ Hsrc) as (row & s1 & c & id1 & Hnew & Hat & _).
    exists row, s1, (DataRow.keys (delete "id" src)). split; [done|].
    split; [apply (getColumnKeys_run _ _ _ _ Hat)|].
    apply not_elem_of_keys, lookup_delete_eq.
  - intros s row o obj op Hat Hinv. apply not_elem_of_keys in Hinv.
    rewrite (perform_run _ _ _ _ op Hat).
    destruct (DataRow.rejected obj op) eqn:Hrej.
    + exists false, s, (DataRow.keys obj). split; [done|].
      split; [apply (getColumnKeys_run _ _ _ _ Hat)|].
      split; [by apply not_elem_of_keys | done].
    + unfold DataRow.gated.
      destruct (DataRow.defaultPrevented _ _ _).
      * eexists _, _, (DataRow.keys obj). split; [done|].
        split; [apply getColumnKeys_run with o; by apply row_at_emit|].
        split; [by apply not_elem_of_keys | done].
      * eexists _, _, (DataRow.keys (DataRow.change op obj)). split; [done|].
        split; [apply getColumnKeys_run with o; apply row_at_emit;
                by apply row_at_update with obj|].
        split; [|done]. by apply not_elem_of_keys, change_keeps_id_out.
Qed.

(** C8: a cancelled pre-event. Once a listener that cancels the event is
    registered with [on] for [insertColumn], inserting a new key [k] answers
    [false], [k] is not among the keys afterwards and no columns object has
    changed. In general, when a listener cancels its pre-event, each of the
    four mutators answers [false], leaves every columns object and every row
    as it was, and has published the pre-event alone. *)
Theorem cancelled_mutation_not_applied s row o obj k (v : DataRow.ColumnTypes)
    (cancel : DataRow.Listener) :
  DataRow.row_at s row o obj →
  k ≠ "id" →
  k ∉ DataRow.keys obj →
  cancel obj (DataRow.mkEvent "insertColumn" (DataRow.ColumnArgs k v)) = true →
  (∃ unsubscribe s1 s2 ks,
     DataRow.on row "insertColumn" cancel s = Some (unsubscribe, s1) ∧
     DataRow.insertColumn row k v s1 = Some (false, s2) ∧
     DataRow.getColumnKeys row s2 = Some (ks, s2) ∧
     (k ∉ ks) ∧
     DataRow.colObjs s2 = DataRow.colObjs s) ∧
  (∀ op,
     DataRow.rejected obj op = false →
     DataRow.defaultPrevented o obj (DataRow.preEvent obj op) = true →
     ∃ s1,
       DataRow.perform row op s = Some (false, s1) ∧
       DataRow.colObjs s1 = DataRow.colObjs s ∧
       DataRow.rowObjs s1 = DataRow.rowObjs s ∧
       DataRow.published s1 =
         (DataRow.published s ++ [(row, DataRow.preEvent obj op)])%list).
Proof.
  intros Hat Hk Hnew Hcancel. split.
  - destruct (on_run _ _ _ _ "insertColumn" cancel Hat) as (unsub & s1 & Hon & Hat1).
    assert (DataRow.colObjs s1 = DataRow.colObjs s) as Hcols.
    { unfold DataRow.on, DataRow.addEvent in Hon.
      rewrite (bind_run _ _ _ _ _ (getRow_run _ _ _ _ Hat)) in Hon.
      by injection Hon as _ <-. }
    exists unsub, s1. rewrite (insertColumn_run _ _ _ _ _ v Hat1 Hk Hnew).
    unfold DataRow.gated.
    rewrite (defaultPrevented_registered o obj
               (DataRow.mkEvent "insertColumn" (DataRow.ColumnArgs k v)) _ _ Hcancel).
    eexists _, (DataRow.keys obj). split; [done|]. split; [done|].
    split; [apply (getColumnKeys_run _ _ _ _ (row_at_emit _ _ _ _ _ Hat1))|].
    by split.
  - intros op Hrej Hveto. rewrite (perform_run _ _ _ _ op Hat), Hrej.
    unfold DataRow.gated. rewrite Hveto. by eexists.
Qed.

(** C9: [getAllColumns()] returns a reference to a new mapping holding the
    row's entries. Whatever entries a caller then assigns or removes through
    that reference, the row's own columns object and fields stay as they
    were, and [getColumn] answers as before. *)
Theorem getAllColumns_is_a_copy s row o obj :
  DataRow.row_at s row o obj →
  ∃ c s1,
    DataRow.getAllColumns row s = Some (c, s1) ∧
    DataRow.readObj c s1 = Some (obj, s1) ∧
    ∀ ms, ∃ s2,
      DataRow.mutateAll c ms s1 = Some (tt, s2) ∧
      DataRow.row_at s2 row o obj ∧
      ∀ k, DataRow.getColumn row k s2 = Some (DataRow.get obj k, s2) ∧
           DataRow.getColumn row k s = Some (DataRow.get obj k, s).
Proof.
  intros Hat. rewrite (getAllColumns_run _ _ _ _ Hat).
  set (c := fresh (dom (DataRow.colObjs s))).
  assert (c ≠ DataRow.columns o) as Hne
    by (apply fresh_ref_ne; destruct Hat as [_ Hc]; by rewrite Hc).
  eexists _, _. split; [done|]. split.
  { unfold DataRow.readObj. cbn. by rewrite lookup_insert_eq. }
  intros ms.
  destruct (mutateAll_run ms (DataRow.with_colObjs <[c := obj]> s) row o obj c)
    as (s2 & Hrun & Hat2 & _); [done | | by apply row_at_other |].
  { cbn. rewrite lookup_insert_eq. by eexists. }
  exists s2. split; [done|]. split; [done|]. intros k.
  split; by apply getColumn_run with o.
Qed.

End ColumnAPI.

(** ** Serialisation *)
Section Serialisation.
Context `{TableJSON}.

Lemma later_key_decide (k key : string) (rest : list string) :
  k ≠ key → bool_decide (k ∈ key :: rest) = bool_decide (k ∈ rest).
Proof.
  intros Hne. apply bool_decide_ext. rewrite elem_of_cons.
  split; [by intros [?|?] | by right].
Qed.

(** The [for] loop of [toJSON], read field by field. Over own keys of the
    columns it never throws; a visited key other than [__proto__] whose value
    is written holds what was written, and any other field is as it was. *)
Lemma toJSON_loop_run (columns1 : gmap string DataRow.ColumnTypes) columnKeys
    (json : gmap string JSONValue) :
  (∀ k, k ∈ columnKeys → is_Some (columns1 !! k)) →
  json !! "__proto__" = None →
  ∃ json',
    DataRow.toJSON_loop columns1 columnKeys json = Some json' ∧
    ∀ k, json' !! k =
           if bool_decide (k ∈ columnKeys) && negb (String.eqb k "__proto__")
           then match columns1 !! k ≫= DataRow.written with
                | Some j => Some j
                | None => json !! k
                end
           else json !! k.
Proof.
  revert json. induction columnKeys as [|key rest IH]; intros json Hown Hproto.
  { exists json. by split. }
  destruct (Hown key) as [value Hvalue]; [apply list_elem_of_here|].
  assert (∀ k, k ∈ rest → is_Some (columns1 !! k)) as Hrest
    by (intros k Hk; apply Hown; by apply list_elem_of_further).
  assert (∃ json1,
            DataRow.toJSON_loop columns1 (key :: rest) json =
              DataRow.toJSON_loop columns1 rest json1 ∧
            json1 !! "__proto__" = None ∧
            (∀ k, k ≠ key → json1 !! k = json !! k) ∧
            (key ≠ "__proto__" →
             json1 !! key = match DataRow.written value with
                            | Some j => Some j
                            | None => json !! key
                            end)) as (json1 & Hstep & Hproto1 & Hframe & Hkey).
  { assert (∀ j, DataRow.assign key j json !! "__proto__" = None) as Hassign.
    { intros j. destruct (decide (key = "__proto__")) as [->|Hne].
      - by rewrite assign_proto.
      - by rewrite lookup_assign_ne. }
    assert (∀ j, key ≠ "__proto__" →
                 DataRow.assign key j json !! key = Some j) as Hwritten
      by (intros j Hne; by rewrite assign_other, lookup_insert_eq).
    cbn [DataRow.toJSON_loop]. rewrite (get_own _ _ _ Hvalue).
    destruct value as [| |b|n|x|time|table]; cbn;
      (eexists; split; [reflexivity|]; split; [by auto|]; split;
       [intros k Hk; by rewrite ?lookup_assign_ne | by auto]). }
  destruct (IH json1 Hrest Hproto1) as (json' & Hrun & Hlookup).
  exists json'. split; [by rewrite Hstep|]. intros k. rewrite Hlookup.
  destruct (String.eqb_spec k "__proto__") as [->|Hk].
  { rewrite !andb_false_r. by rewrite Hproto1, Hproto. }
  rewrite !andb_true_r. destruct (decide (k = key)) as [->|Hne].
  - rewrite (bool_decide_eq_true_2 (key ∈ key :: rest)) by apply list_elem_of_here.
    rewrite Hvalue, (Hkey Hk). cbn.
    case_bool_decide; by destruct (DataRow.written value).
  - rewrite (later_key_decide k key rest Hne), (Hframe k Hne). done.
Qed.

(** [toJSON()] on a live row, field by field: what is written for the column
    of that key, unless the key is [__proto__], and else the header. *)
Lemma toJSON_run s row o obj :
  DataRow.row_at s row o obj →
  ∃ json,
    DataRow.toJSON row s =
      Some (json,
            DataRow.with_colObjs <[fresh (dom (DataRow.colObjs s)) := obj]> s) ∧
    ∀ k, json !! k =
           match (if String.eqb k "__proto__" then None
                  else obj !! k ≫= DataRow.written) with
           | Some j => Some j
           | None => DataRow.header o !! k
           end.
Proof.
  intros Hat. unfold DataRow.toJSON.
  rewrite (bind_run _ _ _ _ _ (getAllColumns_run _ _ _ _ Hat)).
  set (c := fresh (dom (DataRow.colObjs s))).
  set (s1 := DataRow.with_colObjs <[c := obj]> s).
  assert (DataRow.readObj c s1 = Some (obj, s1)) as Hread
    by (unfold DataRow.readObj; cbn; by rewrite lookup_insert_eq).
  rewrite (bind_run _ _ _ _ _ Hread).
  assert (DataRow.getRow row s1 = Some (o, s1)) as Hrow
    by (destruct Hat as [Hr _]; unfold DataRow.getRow; cbn; by rewrite Hr).
  rewrite (bind_run _ _ _ _ _ Hrow).
  destruct (toJSON_loop_run obj (DataRow.keys obj) (DataRow.header o))
    as (json & Hloop & Hlookup); [by intros k ?%elem_of_keys | done |].
  exists json. unfold DataRow.orThrow. fold (DataRow.header o).
  rewrite Hloop. split; [done|]. intros k. rewrite Hlookup.
  destruct (String.eqb k "__proto__"); [by rewrite andb_false_r|].
  rewrite andb_true_r. case_bool_decide as Hin; [done|].
  apply not_elem_of_keys in Hin. by rewrite Hin.
Qed.


(** The [while] loop of [fromJSON], read entry by entry: a popped key that
    does not start with an underscore holds what was rebuilt from its field;
    any other entry of the object being filled is as it was. *)
Lemma fromJSON_loop_run (json : gmap string JSONValue) popped c s
    (acc : gmap string DataRow.ColumnTypes) :
  DataRow.colObjs s !! c = Some acc →
  ∃ filled,
    DataRow.fromJSON_loop json popped c s =
      Some (tt, DataRow.with_colObjs <[c := filled]> s) ∧
    ∀ k, filled !! k =
           if bool_decide (k ∈ popped) && negb (DataRow.startsWithUnderscore k)
           then Some match json !! k with
                     | Some value => DataRow.fromJSON_value value
                     | None => DataRow.VUndefined
                     end
           else acc !! k.
Proof.
  revert s acc. induction popped as [|key rest IH]; intros s acc Hc.
  - exists acc. split; [|done]. cbn. unfold mret, DataRow.M_ret.
    destruct s as [cols ? ? ? ?]. unfold DataRow.with_colObjs. cbn in *.
    by rewrite insert_id.
  - cbn [DataRow.fromJSON_loop].
    destruct (DataRow.startsWithUnderscore key) eqn:Hus.
    + destruct (IH s acc Hc) as (filled & Hrun & Hlookup).
      exists filled. split; [done|]. intros k. rewrite Hlookup.
      destruct (decide (k = key)) as [->|Hne].
      * rewrite Hus. cbn. by rewrite !andb_false_r.
      * by rewrite (later_key_decide k key rest).
    + set (value := match json !! key with
                    | Some value => DataRow.fromJSON_value value
                    | None => DataRow.VUndefined
                    end).
      assert (DataRow.setProperty c key value s =
                Some (tt, DataRow.with_colObjs <[c := <[key := value]> acc]> s))
        as Hset.
      { assert (key ≠ "__proto__") as Hproto by by intros ->.
        unfold DataRow.setProperty, DataRow.updateObj.
        by rewrite Hc, assign_other. }
      rewrite (bind_run _ _ _ _ _ Hset).
      destruct (IH (DataRow.with_colObjs <[c := <[key := value]> acc]> s)
                  (<[key := value]> acc)) as (filled & Hrun & Hlookup);
        [apply lookup_insert_eq|].
      exists filled. split.
      * rewrite Hrun. unfold DataRow.with_colObjs. cbn.
        by rewrite insert_insert_eq.
      * intros k. rewrite Hlookup.
        destruct (decide (k = key)) as [->|Hne].
        -- rewrite (bool_decide_eq_true_2 (key ∈ key :: rest))
             by apply list_elem_of_here.
           rewrite Hus. cbn. rewrite lookup_insert_eq, andb_true_r.
           by case_bool_decide.
        -- rewrite lookup_insert_ne by done.
           by rewrite (later_key_decide k key rest).
Qed.

Lemma fromJSON_run (json : gmap string JSONValue) s :
  ∃ row s' c id1 filled,
    DataRow.fromJSON json s = Some (row, s') ∧
    DataRow.row_at s' row (DataRow.mkRow c newDataConverter id1 [])
      (delete "id" filled) ∧
    (∀ x, filled !! "id" = Some (DataRow.VString x) → id1 = x) ∧
    ∀ k, filled !! k =
           if DataRow.startsWithUnderscore k then None
           else DataRow.fromJSON_value <$> json !! k.
Proof.
  unfold DataRow.fromJSON.
  set (c0 := fresh (dom (DataRow.colObjs s))).
  set (s0 := DataRow.with_colObjs <[c0 := ∅]> s).
  assert (DataRow.allocObj ∅ s = Some (c0, s0)) as Halloc by done.
  rewrite (bind_run _ _ _ _ _ Halloc).
  destruct (fromJSON_loop_run json (reverse (DataRow.keys json)) c0 s0 ∅)
    as (filled & Hloop & Hlookup); [apply lookup_insert_eq|].
  rewrite (bind_run _ _ _ _ _ Hloop).
  destruct (new_run (DataRow.with_colObjs <[c0 := filled]> s0) (Some c0) None filled)
    as (row & s' & c & id1 & Hnew & Hat & Hadopt); [apply lookup_insert_eq|].
  exists row, s', c, id1, filled. split; [done|]. split; [done|].
  split; [done|]. intros k. rewrite Hlookup, lookup_empty.
  destruct (DataRow.startsWithUnderscore k); [by rewrite andb_false_r|].
  rewrite andb_true_r. case_bool_decide as Hin.
  - rewrite elem_of_reverse, elem_of_keys in Hin. by destruct Hin as [value ->].
  - rewrite elem_of_reverse, not_elem_of_keys in Hin. by rewrite Hin.
Qed.

(** C2, as the code has it: for every row whose columns hold only boolean,
    null, number, string or Date values, [fromJSON(row.toJSON())] returns a
    row with the same id; a column whose key starts with an underscore is
    not in it; every other column is in it, a boolean, null, number or string
    with the same value and a Date as the number of its time value, and it
    has no column besides these. *)
Theorem fromJSON_toJSON s row o obj :
  DataRow.row_at s row o obj →
  "id" ∉ DataRow.keys obj →
  (∀ k value, obj !! k = Some value → DataRow.primitiveOrDate value = true) →
  ∃ json s1 row' s2 o' obj',
    DataRow.toJSON row s = Some (json, s1) ∧
    DataRow.fromJSON json s1 = Some (row', s2) ∧
    DataRow.row_at s2 row' o' obj' ∧
    DataRow.id o' = DataRow.id o ∧
    ∀ k, obj' !! k =
           if DataRow.startsWithUnderscore k then None
           else DataRow.decayed <$> obj !! k.
Proof.
  intros Hat Hinv Hvalues. apply not_elem_of_keys in Hinv.
  destruct (toJSON_run _ _ _ _ Hat) as (json & Hto & Hjson).
  destruct (fromJSON_run json
              (DataRow.with_colObjs <[fresh (dom (DataRow.colObjs s)) := obj]> s))
    as (row' & s2 & c & id1 & filled & Hfrom & Hat' & Hadopt & Hfilled).
  assert (json !! "id" = Some (JString (DataRow.id o))) as Hid
    by by rewrite Hjson, Hinv.
  eexists json, _, row', s2, (DataRow.mkRow c newDataConverter id1 []),
    (delete "id" filled).
  split; [exact Hto|]. split; [done|]. split; [done|]. split.
  { cbn. apply Hadopt. by rewrite Hfilled, Hid. }
  intros k. destruct (decide (k = "id")) as [->|Hk].
  { rewrite lookup_delete_eq, Hinv. done. }
  rewrite lookup_delete_ne by done. rewrite Hfilled.
  destruct (DataRow.startsWithUnderscore k) eqn:Hus; [done|].
  rewrite Hjson. destruct (String.eqb_spec k "__proto__") as [->|Hproto]; [done|].
  destruct (obj !! k) as [value|] eqn:Hobj; cbn.
  - specialize (Hvalues _ _ Hobj). by destruct value.
  - unfold DataRow.header. rewrite lookup_insert_ne by done.
    rewrite lookup_singleton_ne; [done|]. by intros <-.
Qed.

End Serialisation.

(** ** How the mutators behave beyond the claims *)
Section Mutators.
Context `{Imports}.

Lemma length_keys {V} (obj : gmap string V) : length (DataRow.keys obj) = size obj.
Proof. unfold DataRow.keys. by rewrite length_fmap, length_map_to_list. Qed.

(** The row after a mutator whose default action ran. *)
Lemma row_at_changed s row o obj pre post f :
  DataRow.row_at s row o obj →
  DataRow.row_at
    (DataRow.emit [(row, pre); (row, post)]
       (DataRow.with_colObjs <[DataRow.columns o := f obj]> s))
    row o (f obj).
Proof. intros Hat. apply row_at_emit. by apply row_at_update with obj. Qed.


(** X2: updating a column that is there. With [k] not ["id"], present, and
    no listener cancelling, [updateColumn(k, v)] answers [true], [getColumn(k)]
    then gives [v], and the number of columns is what it was. *)
Theorem updateColumn_overwrites s row o obj k (v : DataRow.ColumnTypes) :
  DataRow.row_at s row o obj →
  k ≠ "id" →
  k ∈ DataRow.keys obj →
  DataRow.defaultPrevented o obj
    (DataRow.mkEvent "updateColumn" (DataRow.ColumnArgs k v)) = false →
  ∃ s1 n,
    DataRow.updateColumn row k v s = Some (true, s1) ∧
    DataRow.getColumn row k s1 = Some (DataRow.Own v, s1) ∧
    DataRow.getColumnCount row s1 = Some (n, s1) ∧
    DataRow.getColumnCount row s = Some (n, s).
Proof.
  intros Hat Hk Hin Hveto. apply elem_of_keys in Hin.
  rewrite (updateColumn_run _ _ _ _ _ v Hat Hk). unfold DataRow.gated.
  rewrite Hveto, (assign_present k v obj Hin).
  pose proof (row_at_changed _ _ _ _
                (DataRow.mkEvent "updateColumn" (DataRow.ColumnArgs k v))
                (DataRow.mkEvent "afterUpdateColumn" (DataRow.ColumnArgs k v))
                <[k := v]> Hat) as Hat1.
  eexists _, (size obj). split; [done|].
  rewrite (getColumn_run _ _ _ _ k Hat1), (getColumnCount_run _ _ _ _ Hat1),
    (getColumnCount_run _ _ _ _ Hat), !length_keys,
    (get_own _ _ v (lookup_insert_eq obj k v)), map_size_insert_Some by done.
  done.
Qed.

(** X3: inserting a new column, under a key that is neither ["id"] nor
    ["__proto__"], and deleting it again, with no listener cancelling either
    pre-event, gives back the column mapping the row started from: every
    columns object of the store is as it was. *)
Theorem insertColumn_then_deleteColumn s row o obj k (v : DataRow.ColumnTypes) :
  DataRow.row_at s row o obj →
  k ≠ "id" →
  k ≠ "__proto__" →
  k ∉ DataRow.keys obj →
  DataRow.defaultPrevented o obj
    (DataRow.mkEvent "insertColumn" (DataRow.ColumnArgs k v)) = false →
  DataRow.defaultPrevented o (<[k := v]> obj)
    (DataRow.mkEvent "deleteColumn" (DataRow.ColumnArgs k v)) = false →
  ∃ s1 s2,
    DataRow.insertColumn row k v s = Some (true, s1) ∧
    DataRow.deleteColumn row k s1 = Some (true, s2) ∧
    DataRow.row_at s2 row o obj ∧
    DataRow.colObjs s2 = DataRow.colObjs s.
Proof.
  intros Hat Hk Hproto Hnew Hveto1 Hveto2.
  rewrite (insertColumn_run _ _ _ _ _ v Hat Hk Hnew). unfold DataRow.gated.
  rewrite Hveto1, (assign_other k v obj Hproto).
  pose proof (row_at_changed _ _ _ _
                (DataRow.mkEvent "insertColumn" (DataRow.ColumnArgs k v))
                (DataRow.mkEvent "afterInsertColumn" (DataRow.ColumnArgs k v))
                <[k := v]> Hat) as Hat1.
  eexists _, _. split; [done|].
  rewrite (deleteColumn_run _ _ _ _ _ Hat1 Hk). unfold DataRow.gated.
  rewrite (get_own _ _ v (lookup_insert_eq obj k v)), Hveto2.
  apply not_elem_of_keys in Hnew.
  split; [done|]. destruct Hat as [Hr Hc].
  assert (<[DataRow.columns o := delete k (<[k := v]> obj)]>
            (<[DataRow.columns o := <[k := v]> obj]> (DataRow.colObjs s)) =
          DataRow.colObjs s) as Hsame
    by (rewrite insert_insert_eq, delete_insert_id by done; by apply insert_id).
  unfold DataRow.row_at. cbn. by rewrite Hsame.
Qed.

(** X4: a mutator touches one key only. Whatever the listeners answer and
    whatever it returns, [insertColumn], [updateColumn] and [deleteColumn]
    leave the entry of every column other than the one they were called on
    as it was, and [clear] that of every column other than ["length"]: same
    presence, same value. For a mutator not called on ["__proto__"] (where
    the assignment can swap the prototype, which the object reads the keys
    it does not have from), [getColumn] on such a key answers as before. *)
Theorem other_columns_untouched s row o obj op k' :
  DataRow.row_at s row o obj →
  k' ≠ DataRow.target op →
  ∃ b s1 obj1,
    DataRow.perform row op s = Some (b, s1) ∧
    DataRow.row_at s1 row o obj1 ∧
    obj1 !! k' = obj !! k' ∧
    (DataRow.target op ≠ "__proto__" →
     DataRow.getColumn row k' s1 = Some (DataRow.get obj k', s1)).
Proof.
  intros Hat Hk'. rewrite (perform_run _ _ _ _ op Hat).
  assert (DataRow.change op obj !! k' = obj !! k') as Hframe.
  { destruct op as [k v|k v|k|]; cbn in *;
      by rewrite ?lookup_assign_ne, ?lookup_delete_ne by done. }
  assert (∀ (b : bool) (s1 : DataRow.Store)
            (obj1 : gmap string DataRow.ColumnTypes),
            DataRow.row_at s1 row o obj1 → obj1 !! k' = obj !! k' →
            ∃ b0 s0 obj0,
              Some (b, s1) = Some (b0, s0) ∧ DataRow.row_at s0 row o obj0 ∧
              obj0 !! k' = obj !! k' ∧
              (DataRow.target op ≠ "__proto__" →
               DataRow.getColumn row k' s0 = Some (DataRow.get obj k', s0)))
    as Hdone.
  { intros b s1 obj1 Hat1 Hsame. exists b, s1, obj1.
    split; [done|]. split; [done|]. split; [done|]. intros _.
    rewrite (getColumn_run _ _ _ _ k' Hat1). unfold DataRow.get. by rewrite Hsame. }
  destruct (DataRow.rejected obj op); [by apply Hdone with obj|].
  unfold DataRow.gated. destruct (DataRow.defaultPrevented _ _ _).
  - apply Hdone with obj; [by apply row_at_emit | done].
  - apply Hdone with (DataRow.change op obj); [by apply row_at_changed | done].
Qed.


(** X6: the events of one mutator call. A call that its guards reject
    publishes nothing; a call whose pre-event is cancelled publishes the
    pre-event alone; any other call publishes the pre-event and then the
    post-event, both on the row and with the same payload. *)
Theorem events_of_a_call s row o obj op :
  DataRow.row_at s row o obj →
  ∃ b s1,
    DataRow.perform row op s = Some (b, s1) ∧
    DataRow.published s1 =
      (DataRow.published s ++
         (if DataRow.rejected obj op then []
          else if DataRow.defaultPrevented o obj (DataRow.preEvent obj op)
               then [(row, DataRow.preEvent obj op)]
               else [(row, DataRow.preEvent obj op);
                     (row, DataRow.postEvent obj op)]))%list ∧
    DataRow.args (DataRow.postEvent obj op) = DataRow.args (DataRow.preEvent obj op).
Proof.
  intros Hat. rewrite (perform_run _ _ _ _ op Hat).
  assert (DataRow.args (DataRow.postEvent obj op) =
          DataRow.args (DataRow.preEvent obj op)) as Hargs by by destruct op.
  destruct (DataRow.rejected obj op).
  { exists false, s. by rewrite app_nil_r. }
  unfold DataRow.gated. destruct (DataRow.defaultPrevented _ _ _); by eexists _, _.
Qed.


(** X8: inserting a new column, under a key that is neither ["id"] nor
    ["__proto__"], and then updating it, with no listener cancelling, leaves
    the updated value under the key and one column more than before. *)
Theorem insertColumn_then_updateColumn s row o obj k (v w : DataRow.ColumnTypes) :
  DataRow.row_at s row o obj →
  k ≠ "id" →
  k ≠ "__proto__" →
  k ∉ DataRow.keys obj →
  DataRow.defaultPrevented o obj
    (DataRow.mkEvent "insertColumn" (DataRow.ColumnArgs k v)) = false →
  DataRow.defaultPrevented o (<[k := v]> obj)
    (DataRow.mkEvent "updateColumn" (DataRow.ColumnArgs k w)) = false →
  ∃ s1 s2 n,
    DataRow.insertColumn row k v s = Some (true, s1) ∧
    DataRow.updateColumn row k w s1 = Some (true, s2) ∧
    DataRow.getColumn row k s2 = Some (DataRow.Own w, s2) ∧
    DataRow.getColumnCount row s = Some (n, s) ∧
    DataRow.getColumnCount row s2 = Some (S n, s2).
Proof.
  intros Hat Hk Hproto Hnew Hveto1 Hveto2.
  rewrite (insertColumn_run _ _ _ _ _ v Hat Hk Hnew). unfold DataRow.gated.
  rewrite Hveto1, (assign_other k v obj Hproto).
  pose proof (row_at_changed _ _ _ _
                (DataRow.mkEvent "insertColumn" (DataRow.ColumnArgs k v))
                (DataRow.mkEvent "afterInsertColumn" (DataRow.ColumnArgs k v))
                <[k := v]> Hat) as Hat1.
  eexists _, _, (size obj). split; [done|].
  rewrite (updateColumn_run _ _ _ _ _ w Hat1 Hk). unfold DataRow.gated.
  rewrite Hveto2, (assign_other k w _ Hproto).
  pose proof (row_at_changed _ _ _ _
                (DataRow.mkEvent "updateColumn" (DataRow.ColumnArgs k w))
                (DataRow.mkEvent "afterUpdateColumn" (DataRow.ColumnArgs k w))
                <[k := w]> Hat1) as Hat2.
  split; [done|].
  rewrite (getColumn_run _ _ _ _ k Hat2), (getColumnCount_run _ _ _ _ Hat2),
    (getColumnCount_run _ _ _ _ Hat), !length_keys.
  apply not_elem_of_keys in Hnew.
  rewrite (get_own _ _ w (lookup_insert_eq _ k w)), insert_insert_eq,
    map_size_insert_None by done.
  done.
Qed.

(** X21: deleting a column, under a key other than ["__proto__"], and
    inserting it again, with no listener cancelling either pre-event, leaves
    the row with the columns that [updateColumn] on that key would have
    left: the new value under the key and every other column as it was. *)
Theorem deleteColumn_then_insertColumn s row o obj k (value w : DataRow.ColumnTypes) :
  DataRow.row_at s row o obj →
  k ≠ "id" →
  k ≠ "__proto__" →
  obj !! k = Some value →
  DataRow.defaultPrevented o obj
    (DataRow.mkEvent "deleteColumn" (DataRow.ColumnArgs k value)) = false →
  DataRow.defaultPrevented o (delete k obj)
    (DataRow.mkEvent "insertColumn" (DataRow.ColumnArgs k w)) = false →
  ∃ s1 s2,
    DataRow.deleteColumn row k s = Some (true, s1) ∧
    DataRow.insertColumn row k w s1 = Some (true, s2) ∧
    DataRow.row_at s2 row o (<[k := w]> obj).
Proof.
  intros Hat Hk Hproto Hold Hveto1 Hveto2.
  rewrite (deleteColumn_run _ _ _ _ _ Hat Hk). unfold DataRow.gated.
  rewrite (get_own _ _ _ Hold), Hveto1.
  pose proof (row_at_changed _ _ _ _
                (DataRow.mkEvent "deleteColumn" (DataRow.ColumnArgs k value))
                (DataRow.mkEvent "afterDeleteColumn" (DataRow.ColumnArgs k value))
                (delete k) Hat) as Hat1.
  eexists _, _. split; [done|].
  rewrite (insertColumn_run _ _ _ _ _ w Hat1 Hk)
    by (apply not_elem_of_keys, lookup_delete_eq).
  unfold DataRow.gated. rewrite Hveto2. split; [done|].
  rewrite <- (insert_delete_eq obj k w), <- (assign_other k w (delete k obj) Hproto).
  by apply (row_at_changed _ _ _ _ _ _ (DataRow.assign k w)).
Qed.

End Mutators.

(** ** Construction *)
Section Construction.
Context `{Imports}.

(** Everything [new] does to the store, for a source mapping that exists. *)
Lemma new_effect s c0 converter0 src :
  DataRow.colObjs s !! c0 = Some src →
  ∃ row s1 c,
    DataRow.new (Some c0) converter0 s = Some (row, s1) ∧
    DataRow.rowObjs s !! row = None ∧
    DataRow.colObjs s !! c = None ∧
    DataRow.rowObjs s1 =
      <[row := DataRow.mkRow c (default newDataConverter converter0)
                 match src !! "id" with
                 | Some (DataRow.VString x) => x
                 | _ => uniqueKeyOf (DataRow.idCounter s)
                 end []]> (DataRow.rowObjs s) ∧
    DataRow.colObjs s1 = <[c := delete "id" src]> (DataRow.colObjs s) ∧
    DataRow.idCounter s1 =
      match src !! "id" with
      | Some (DataRow.VString _) => DataRow.idCounter s
      | _ => S (DataRow.idCounter s)
      end ∧
    DataRow.published s1 = DataRow.published s.
Proof.
  intros Hsrc. unfold DataRow.new.
  set (c := fresh (dom (DataRow.colObjs s))).
  assert (DataRow.colObjs s !! c = None) as Hc
    by apply not_elem_of_dom, is_fresh.
  assert (DataRow.rowObjs s !! fresh (dom (DataRow.rowObjs s)) = None) as Hr
    by apply not_elem_of_dom, is_fresh.
  assert (DataRow.merge c0 s = Some (c, DataRow.with_colObjs <[c := src]> s))
    as Hmerge
    by (unfold DataRow.merge, DataRow.readObj, mbind, DataRow.M_bind;
        by rewrite Hsrc).
  rewrite (bind_run _ _ s c0 s) by done.
  rewrite (bind_run _ _ _ _ _ Hmerge).
  assert (DataRow.readObj c (DataRow.with_colObjs <[c := src]> s) =
            Some (src, DataRow.with_colObjs <[c := src]> s)) as Hread
    by (unfold DataRow.readObj; cbn; by rewrite lookup_insert_eq).
  rewrite (bind_run _ _ _ _ _ Hread). unfold DataRow.get.
  destruct (src !! "id") as [[| | | |x| |]|]; rewrite ?absent_id; cbn;
    unfold mbind, DataRow.M_bind, DataRow.uniqueKey, DataRow.deleteProperty,
      DataRow.updateObj, DataRow.allocRow; cbn;
    rewrite lookup_insert_eq; cbn;
    (eexists _, _, c; split; [reflexivity|]);
    (split; [exact Hr|]); (split; [exact Hc|]); (split; [reflexivity|]);
    (split; [apply insert_insert_eq|]); done.
Qed.

(** X9: constructing from a mapping whose [id] entry is a string. The row
    takes that string as its id without drawing a generated key, holds the
    other entries as its columns, has the converter it was given (a new
    default one when none was), has no listener, and has published nothing;
    [getColumn("id")] on it gives [undefined]. *)
Theorem new_adopts_string_id s c0 converter0 src x :
  DataRow.colObjs s !! c0 = Some src →
  src !! "id" = Some (DataRow.VString x) →
  ∃ row s1 o,
    DataRow.new (Some c0) converter0 s = Some (row, s1) ∧
    DataRow.row_at s1 row o (delete "id" src) ∧
    DataRow.id o = x ∧
    DataRow.converter o = default newDataConverter converter0 ∧
    DataRow.hcEvents o = [] ∧
    DataRow.getColumn row "id" s1 = Some (DataRow.Own DataRow.VUndefined, s1) ∧
    DataRow.idCounter s1 = DataRow.idCounter s ∧
    DataRow.published s1 = DataRow.published s.
Proof.
  intros Hsrc Hid.
  destruct (new_effect s c0 converter0 src Hsrc)
    as (row & s1 & c & Hnew & _ & _ & Hrows & Hcols & Hcount & Hpub).
  rewrite Hid in Hrows, Hcount.
  assert (DataRow.row_at s1 row
            (DataRow.mkRow c (default newDataConverter converter0) x [])
            (delete "id" src)) as Hat.
  { split; [by rewrite Hrows, lookup_insert_eq|].
    cbn. by rewrite Hcols, lookup_insert_eq. }
  eexists row, s1, _. split; [done|]. split; [exact Hat|].
  rewrite (getColumn_run _ _ _ _ "id" Hat). unfold DataRow.get.
  by rewrite lookup_delete_eq.
Qed.

Lemma new_without_string_id s c0 converter0 src :
  DataRow.colObjs s !! c0 = Some src →
  (∀ x, src !! "id" ≠ Some (DataRow.VString x)) →
  ∃ row s1 o,
    DataRow.new (Some c0) converter0 s = Some (row, s1) ∧
    DataRow.row_at s1 row o (delete "id" src) ∧
    DataRow.id o = uniqueKeyOf (DataRow.idCounter s) ∧
    DataRow.idCounter s1 = S (DataRow.idCounter s) ∧
    DataRow.getColumn row "id" s1 = Some (DataRow.Own DataRow.VUndefined, s1).
Proof.
  intros Hsrc Hid.
  destruct (new_effect s c0 converter0 src Hsrc)
    as (row & s1 & c & Hnew & _ & _ & Hrows & Hcols & Hcount & _).
  assert (match src !! "id" with
          | Some (DataRow.VString x) => x
          | _ => uniqueKeyOf (DataRow.idCounter s)
          end = uniqueKeyOf (DataRow.idCounter s)) as Hgen
    by (destruct (src !! "id") as [[| | | |x| |]|] eqn:E; try done;
        by destruct (Hid x)).
  assert (match src !! "id" with
          | Some (DataRow.VString _) => DataRow.idCounter s
          | _ => S (DataRow.idCounter s)
          end = S (DataRow.idCounter s)) as Hnext
    by (destruct (src !! "id") as [[| | | |x| |]|] eqn:E; try done;
        by destruct (Hid x)).
  rewrite Hgen in Hrows. rewrite Hnext in Hcount.
  assert (DataRow.row_at s1 row
            (DataRow.mkRow c (default newDataConverter converter0)
               (uniqueKeyOf (DataRow.idCounter s)) [])
            (delete "id" src)) as Hat.
  { split; [by rewrite Hrows, lookup_insert_eq|].
    cbn. by rewrite Hcols, lookup_insert_eq. }
  eexists row, s1, _. split; [done|]. split; [exact Hat|].
  split; [done|]. split; [done|].
  rewrite (getColumn_run _ _ _ _ "id" Hat). unfold DataRow.get.
  by rewrite lookup_delete_eq.
Qed.

(** X10: constructing from a mapping whose [id] entry is absent or is not a
    string. The row's id is the next generated key and the generator has
    moved on by one; the [id] entry, whatever it held, is not among the
    columns and [getColumn("id")] gives [undefined]. *)
Theorem new_generates_id s c0 converter0 src :
  DataRow.colObjs s !! c0 = Some src →
  (∀ x, src !! "id" ≠ Some (DataRow.VString x)) →
  ∃ row s1 o,
    DataRow.new (Some c0) converter0 s = Some (row, s1) ∧
    DataRow.row_at s1 row o (delete "id" src) ∧
    DataRow.id o = uniqueKeyOf (DataRow.idCounter s) ∧
    DataRow.idCounter s1 = S (DataRow.idCounter s) ∧
    DataRow.getColumn row "id" s1 = Some (DataRow.Own DataRow.VUndefined, s1).
Proof. apply new_without_string_id. Qed.

(** A mutator writes to the columns object of its row and to nothing else
    in the store of objects and rows. *)
Lemma perform_store s row o obj op :
  DataRow.row_at s row o obj →
  ∃ b s1 obj1,
    DataRow.perform row op s = Some (b, s1) ∧
    DataRow.colObjs s1 = <[DataRow.columns o := obj1]> (DataRow.colObjs s) ∧
    DataRow.rowObjs s1 = DataRow.rowObjs s.
Proof.
  intros Hat. rewrite (perform_run _ _ _ _ op Hat).
  assert (DataRow.colObjs s = <[DataRow.columns o := obj]> (DataRow.colObjs s))
    as Hsame by (destruct Hat as [_ Hc]; by rewrite insert_id).
  destruct (DataRow.rejected obj op); [by exists false, s, obj|].
  unfold DataRow.gated. destruct (DataRow.defaultPrevented _ _ _).
  - by eexists _, _, obj.
  - by eexists _, _, (DataRow.change op obj).
Qed.

(** X11: [new DataRow()] with no argument gives a row with no column, the
    next generated key as its id and a new default converter. *)
Theorem new_without_arguments s :
  ∃ row s1 o,
    DataRow.new None None s = Some (row, s1) ∧
    DataRow.row_at s1 row o ∅ ∧
    DataRow.getColumnCount row s1 = Some (0%nat, s1) ∧
    DataRow.id o = uniqueKeyOf (DataRow.idCounter s) ∧
    DataRow.converter o = newDataConverter.
Proof.
  set (c0 := fresh (dom (DataRow.colObjs s))).
  set (s0 := DataRow.with_colObjs <[c0 := ∅]> s).
  assert (DataRow.new None None s = DataRow.new (Some c0) None s0) as ->
    by reflexivity.
  destruct (new_without_string_id s0 c0 None ∅)
    as (row & s1 & o & Hnew & Hat & Hid & _);
    [apply lookup_insert_eq | by intros x; rewrite lookup_empty |].
  rewrite delete_empty in Hat.
  destruct (new_effect s0 c0 None ∅) as (row' & s1' & c & Hnew' & _ & _ & Hrows & _);
    [apply lookup_insert_eq|].
  rewrite Hnew in Hnew'. injection Hnew' as <- <-.
  destruct Hat as [Hr Hc]. rewrite Hrows, lookup_insert_eq in Hr.
  injection Hr as <-.
  exists row, s1, (DataRow.mkRow c newDataConverter
                     (uniqueKeyOf (DataRow.idCounter s)) []).
  assert (DataRow.row_at s1 row
            (DataRow.mkRow c newDataConverter
               (uniqueKeyOf (DataRow.idCounter s)) []) ∅) as Hat
    by (split; [by rewrite Hrows, lookup_insert_eq | done]).
  split; [done|]. split; [done|].
  by rewrite (getColumnCount_run _ _ _ _ Hat).
Qed.

(** X12: two rows constructed one after the other, neither from a mapping
    with a string [id], are different instances with different ids, provided
    the key generator never repeats a key. *)
Theorem successive_generated_ids_differ s c1 c2 converter1 converter2 src1 src2 :
  Inj (=) (=) uniqueKeyOf →
  DataRow.colObjs s !! c1 = Some src1 →
  DataRow.colObjs s !! c2 = Some src2 →
  (∀ x, src1 !! "id" ≠ Some (DataRow.VString x)) →
  (∀ x, src2 !! "id" ≠ Some (DataRow.VString x)) →
  ∃ row1 s1 row2 s2 id1 id2,
    DataRow.new (Some c1) converter1 s = Some (row1, s1) ∧
    DataRow.new (Some c2) converter2 s1 = Some (row2, s2) ∧
    row1 ≠ row2 ∧
    DataRow.idOf s2 row1 = Some id1 ∧
    DataRow.idOf s2 row2 = Some id2 ∧
    id1 ≠ id2.
Proof.
  intros Hinj Hsrc1 Hsrc2 Hid1 Hid2.
  destruct (new_effect s c1 converter1 src1 Hsrc1)
    as (row1 & s1 & c & Hnew1 & _ & Hc & Hrows1 & Hcols1 & _).
  destruct (new_without_string_id s c1 converter1 src1 Hsrc1 Hid1)
    as (row1' & s1' & o1 & Hnew1' & [Hr1 _] & Hgen1 & Hcount1 & _).
  rewrite Hnew1 in Hnew1'. injection Hnew1' as <- <-.
  assert (DataRow.colObjs s1 !! c2 = Some src2) as Hsrc2'.
  { rewrite Hcols1, lookup_insert_ne; [done|]. intros ->. congruence. }
  destruct (new_effect s1 c2 converter2 src2 Hsrc2')
    as (row2 & s2 & c' & Hnew2 & Hfresh2 & _ & Hrows2 & _).
  destruct (new_without_string_id s1 c2 converter2 src2 Hsrc2' Hid2)
    as (row2' & s2' & o2 & Hnew2' & [Hr2 _] & Hgen2 & _).
  rewrite Hnew2 in Hnew2'. injection Hnew2' as <- <-.
  assert (row1 ≠ row2) as Hne by (intros ->; congruence).
  exists row1, s1, row2, s2, (DataRow.id o1), (DataRow.id o2).
  split; [done|]. split; [done|]. split; [done|]. unfold DataRow.idOf.
  split; [|split; [by rewrite Hr2|]].
  - assert (DataRow.rowObjs s2 !! row1 = Some o1) as ->; [|done].
    rewrite Hrows2. by rewrite lookup_insert_ne.
  - rewrite Hgen1, Hgen2, Hcount1. intros Heq%Hinj. lia.
Qed.

(** X13: the constructor does not keep the mapping it is given. After
    [new DataRow(columns)] the caller's mapping is as it was, its [id] entry
    included; whatever the caller then assigns or removes in it, the row's
    columns stay; and whatever mutator is called on the row, the caller's
    mapping stays. *)
Theorem new_does_not_alias s c0 converter0 src :
  DataRow.colObjs s !! c0 = Some src →
  ∃ row s1 o,
    DataRow.new (Some c0) converter0 s = Some (row, s1) ∧
    DataRow.row_at s1 row o (delete "id" src) ∧
    DataRow.readObj c0 s1 = Some (src, s1) ∧
    (∀ ms, ∃ s2,
       DataRow.mutateAll c0 ms s1 = Some (tt, s2) ∧
       DataRow.row_at s2 row o (delete "id" src)) ∧
    (∀ op, ∃ b s2,
       DataRow.perform row op s1 = Some (b, s2) ∧
       DataRow.readObj c0 s2 = Some (src, s2)).
Proof.
  intros Hsrc.
  destruct (new_effect s c0 converter0 src Hsrc)
    as (row & s1 & c & Hnew & _ & Hc & Hrows & Hcols & _).
  assert (c0 ≠ c) as Hne by (intros ->; congruence).
  set (o := DataRow.mkRow c (default newDataConverter converter0)
              match src !! "id" with
              | Some (DataRow.VString x) => x
              | _ => uniqueKeyOf (DataRow.idCounter s)
              end []) in *.
  assert (DataRow.row_at s1 row o (delete "id" src)) as Hat.
  { split; [by rewrite Hrows, lookup_insert_eq|].
    cbn. by rewrite Hcols, lookup_insert_eq. }
  assert (DataRow.colObjs s1 !! c0 = Some src) as Hsrc1
    by by rewrite Hcols, lookup_insert_ne.
  exists row, s1, o. split; [done|]. split; [done|].
  split; [unfold DataRow.readObj; by rewrite Hsrc1|]. split.
  - intros ms.
    destruct (mutateAll_run ms s1 row o (delete "id" src) c0)
      as (s2 & Hrun & Hat2 & _); [done | by eexists | done |].
    by exists s2.
  - intros op.
    destruct (perform_store s1 row o (delete "id" src) op Hat)
      as (b & s2 & obj1 & Hrun & Hcols2 & _).
    exists b, s2. split; [done|]. unfold DataRow.readObj.
    by rewrite Hcols2, lookup_insert_ne, Hsrc1 by done.
Qed.

(** X14: rows do not share columns. A row that exists when another one is
    constructed, from whatever mapping, is a different instance and keeps its
    fields and columns; and whatever mutator is then called on the new row,
    the older row still keeps them. *)
Theorem rows_are_isolated s c0 converter0 src row1 o1 obj1 :
  DataRow.colObjs s !! c0 = Some src →
  DataRow.row_at s row1 o1 obj1 →
  ∃ row2 s1,
    DataRow.new (Some c0) converter0 s = Some (row2, s1) ∧
    row2 ≠ row1 ∧
    DataRow.row_at s1 row1 o1 obj1 ∧
    ∀ op, ∃ b s2,
      DataRow.perform row2 op s1 = Some (b, s2) ∧
      DataRow.row_at s2 row1 o1 obj1.
Proof.
  intros Hsrc [Hr1 Hc1].
  destruct (new_effect s c0 converter0 src Hsrc)
    as (row2 & s1 & c & Hnew & Hr & Hc & Hrows & Hcols & _).
  assert (row2 ≠ row1) as Hne by (intros ->; congruence).
  assert (c ≠ DataRow.columns o1) as Hcne by (intros ->; congruence).
  set (o2 := DataRow.mkRow c (default newDataConverter converter0)
               match src !! "id" with
               | Some (DataRow.VString x) => x
               | _ => uniqueKeyOf (DataRow.idCounter s)
               end []) in *.
  assert (DataRow.row_at s1 row2 o2 (delete "id" src)) as Hat2.
  { split; [by rewrite Hrows, lookup_insert_eq|].
    cbn. by rewrite Hcols, lookup_insert_eq. }
  assert (DataRow.row_at s1 row1 o1 obj1) as Hat1.
  { split; [by rewrite Hrows, lookup_insert_ne|].
    by rewrite Hcols, lookup_insert_ne. }
  exists row2, s1. split; [done|]. split; [done|]. split; [done|].
  intros op.
  destruct (perform_store s1 row2 o2 (delete "id" src) op Hat2)
    as (b & s2 & obj2 & Hrun & Hcols2 & Hrows2).
  exists b, s2. split; [done|]. destruct Hat1 as [Hr1' Hc1']. split.
  - by rewrite Hrows2.
  - by rewrite Hcols2, lookup_insert_ne.
Qed.

End Construction.

(** ** Serialisation beyond the claims *)
Section Rebuilding.
Context `{TableJSON} {coercions : DataRow.Coercions}.

Lemma fromJSON_effect (json : gmap string JSONValue) s :
  ∃ row s1 o obj,
    DataRow.fromJSON json s = Some (row, s1) ∧
    DataRow.row_at s1 row o obj ∧
    DataRow.id o =
      match json !! "id" with
      | Some (JString x) => x
      | _ => uniqueKeyOf (DataRow.idCounter s)
      end ∧
    DataRow.converter o = newDataConverter ∧
    DataRow.hcEvents o = [] ∧
    ∀ k, obj !! k =
           if DataRow.startsWithUnderscore k || String.eqb k "id" then None
           else DataRow.fromJSON_value <$> json !! k.
Proof.
  unfold DataRow.fromJSON.
  set (c0 := fresh (dom (DataRow.colObjs s))).
  set (s0 := DataRow.with_colObjs <[c0 := ∅]> s).
  assert (DataRow.allocObj ∅ s = Some (c0, s0)) as Halloc by done.
  rewrite (bind_run _ _ _ _ _ Halloc).
  destruct (fromJSON_loop_run json (reverse (DataRow.keys json)) c0 s0 ∅)
    as (filled & Hloop & Hlookup); [apply lookup_insert_eq|].
  rewrite (bind_run _ _ _ _ _ Hloop).
  assert (∀ k, filled !! k =
               if DataRow.startsWithUnderscore k then None
               else DataRow.fromJSON_value <$> json !! k) as Hfilled.
  { intros k. rewrite Hlookup, lookup_empty.
    destruct (DataRow.startsWithUnderscore k); [by rewrite andb_false_r|].
    rewrite andb_true_r. case_bool_decide as Hin.
    - rewrite elem_of_reverse, elem_of_keys in Hin. by destruct Hin as [value ->].
    - rewrite elem_of_reverse, not_elem_of_keys in Hin. by rewrite Hin. }
  destruct (new_effect (DataRow.with_colObjs <[c0 := filled]> s0) c0 None filled)
    as (row & s1 & c & Hnew & _ & _ & Hrows & Hcols & _);
    [apply lookup_insert_eq|].
  rewrite Hnew.
  eexists row, s1, _, (delete "id" filled). split; [done|].
  split; [split; [by rewrite Hrows, lookup_insert_eq
                 | cbn; by rewrite Hcols, lookup_insert_eq]|].
  split; [|split; [done|split; [done|]]].
  - cbn. rewrite Hfilled. cbn.
    by destruct (json !! "id") as [[| | | x | |]|].
  - intros k. destruct (String.eqb_spec k "id") as [->|Hk].
    + by rewrite lookup_delete_eq, orb_true_r.
    + by rewrite lookup_delete_ne, Hfilled, orb_false_r.
Qed.

(** X15: [fromJSON] on any JSON object returns a row with a new default
    converter and no listener. Its id is the string under ["id"], or the next
    generated key when that field is absent or not a string. Its columns are
    the fields whose key neither starts with an underscore nor is ["id"]:
    an array rebuilt as a table from a table envelope around it, another
    object rebuilt as a table, and null, booleans, numbers and strings as
    they are. *)
Theorem fromJSON_columns (json : gmap string JSONValue) s :
  ∃ row s1 o obj,
    DataRow.fromJSON json s = Some (row, s1) ∧
    DataRow.row_at s1 row o obj ∧
    DataRow.id o =
      match json !! "id" with
      | Some (JString x) => x
      | _ => uniqueKeyOf (DataRow.idCounter s)
      end ∧
    DataRow.converter o = newDataConverter ∧
    DataRow.hcEvents o = [] ∧
    ∀ k, obj !! k =
           if DataRow.startsWithUnderscore k || String.eqb k "id" then None
           else DataRow.fromJSON_value <$> json !! k.
Proof. apply fromJSON_effect. Qed.

Lemma round_trip_effect s row o obj :
  DataRow.row_at s row o obj →
  "id" ∉ DataRow.keys obj →
  (∀ k table, obj !! k = Some (DataRow.VTable table) →
              ∃ fields, tableToJSON table = JObject fields) →
  ∃ json s1 row' s2 o' obj',
    DataRow.toJSON row s = Some (json, s1) ∧
    DataRow.fromJSON json s1 = Some (row', s2) ∧
    DataRow.row_at s2 row' o' obj' ∧
    DataRow.id o' = DataRow.id o ∧
    ∀ k, obj' !! k =
           if DataRow.startsWithUnderscore k then None
           else obj !! k ≫= DataRow.restored.
Proof.
  intros Hat Hinv Htables. apply not_elem_of_keys in Hinv.
  destruct (toJSON_run _ _ _ _ Hat) as (json & Hto & Hjson).
  destruct (fromJSON_effect json
              (DataRow.with_colObjs <[fresh (dom (DataRow.colObjs s)) := obj]> s))
    as (row' & s2 & o' & obj' & Hfrom & Hat' & Hid' & _ & _ & Hcolumns).
  assert (json !! "id" = Some (JString (DataRow.id o))) as Hid
    by by rewrite Hjson, Hinv.
  eexists json, _, row', s2, o', obj'.
  split; [exact Hto|]. split; [done|]. split; [done|].
  split; [by rewrite Hid', Hid|].
  intros k. rewrite Hcolumns.
  destruct (DataRow.startsWithUnderscore k) eqn:Hus; [done|]. cbn.
  destruct (String.eqb_spec k "id") as [->|Hk]; [by rewrite Hinv|].
  rewrite Hjson. destruct (String.eqb_spec k "__proto__") as [->|Hproto]; [done|].
  destruct (obj !! k) as [value|] eqn:Hobj; cbn.
  - destruct value as [| | | | | |table]; cbn; try done.
    + unfold DataRow.header. rewrite lookup_insert_ne by done.
      rewrite lookup_singleton_ne; [done|]. by intros <-.
    + destruct (Htables _ _ Hobj) as [fields Hfields]. by rewrite Hfields.
  - unfold DataRow.header. rewrite lookup_insert_ne by done.
    rewrite lookup_singleton_ne; [done|]. by intros <-.
Qed.

(** X16: the round trip for every kind of column. For every row whose
    tables serialise to JSON objects, [fromJSON(row.toJSON())] returns a row
    with the same id in which a column whose key starts with an underscore,
    or whose value is [undefined], is missing; a Date is the number of its
    time value; a table is what the table's [fromJSON] rebuilds from the
    table's [toJSON]; and null, booleans, numbers and strings are as they
    were. *)
Theorem round_trip_every_column s row o obj :
  DataRow.row_at s row o obj →
  "id" ∉ DataRow.keys obj →
  (∀ k table, obj !! k = Some (DataRow.VTable table) →
              ∃ fields, tableToJSON table = JObject fields) →
  ∃ json s1 row' s2 o' obj',
    DataRow.toJSON row s = Some (json, s1) ∧
    DataRow.fromJSON json s1 = Some (row', s2) ∧
    DataRow.row_at s2 row' o' obj' ∧
    DataRow.id o' = DataRow.id o ∧
    ∀ k, obj' !! k =
           if DataRow.startsWithUnderscore k then None
           else obj !! k ≫= DataRow.restored.
Proof. apply round_trip_effect. Qed.

(** X19: a rebuilt row survives further round trips. For a row without
    table columns, the row that [fromJSON(row.toJSON())] returns and the row
    a second round trip returns from it have the same id and the same
    columns. *)
Theorem round_trip_is_stable s row o obj :
  DataRow.row_at s row o obj →
  "id" ∉ DataRow.keys obj →
  (∀ k table, obj !! k ≠ Some (DataRow.VTable table)) →
  ∃ json s1 row1 s2 o1 obj1 json1 s3 row2 s4 o2 obj2,
    DataRow.toJSON row s = Some (json, s1) ∧
    DataRow.fromJSON json s1 = Some (row1, s2) ∧
    DataRow.row_at s2 row1 o1 obj1 ∧
    DataRow.toJSON row1 s2 = Some (json1, s3) ∧
    DataRow.fromJSON json1 s3 = Some (row2, s4) ∧
    DataRow.row_at s4 row2 o2 obj2 ∧
    DataRow.id o2 = DataRow.id o1 ∧
    obj2 = obj1.
Proof.
  intros Hat Hinv Hnotable.
  destruct (round_trip_effect s row o obj Hat Hinv)
    as (json & s1 & row1 & s2 & o1 & obj1 & Hto & Hfrom & Hat1 & _ & Hobj1).
  { intros k table Hk. by destruct (Hnotable k table). }
  assert (∀ k value, obj1 !! k = Some value →
            DataRow.startsWithUnderscore k = false ∧
            DataRow.restored value = Some value) as Hfixed.
  { intros k value. rewrite Hobj1.
    destruct (DataRow.startsWithUnderscore k); [done|].
    destruct (obj !! k) as [[| | | | | |table]|] eqn:Hk; cbn; try done;
      try (intros [= <-]; done).
    by destruct (Hnotable k table). }
  destruct (round_trip_effect s2 row1 o1 obj1 Hat1)
    as (json1 & s3 & row2 & s4 & o2 & obj2 & Hto1 & Hfrom1 & Hat2 & Hid2 & Hobj2).
  { apply not_elem_of_keys. rewrite Hobj1. cbn.
    apply not_elem_of_keys in Hinv. by rewrite Hinv. }
  { intros k table Hk. destruct (Hfixed _ _ Hk) as [_ Hre]. cbn in Hre.
    rewrite Hobj1 in Hk. destruct (DataRow.startsWithUnderscore k); [done|].
    destruct (obj !! k) as [[| | | | | |table']|] eqn:Hk'; cbn in Hk; try done.
    by destruct (Hnotable k table'). }
  exists json, s1, row1, s2, o1, obj1, json1, s3, row2, s4, o2, obj2.
  repeat (split; [done|]). apply map_eq. intros k. rewrite Hobj2.
  destruct (obj1 !! k) as [value|] eqn:Hk.
  - destruct (Hfixed _ _ Hk) as [-> Hre]. exact Hre.
  - by destruct (DataRow.startsWithUnderscore k).
Qed.

(** X20: decoding and encoding again. For a JSON object that holds a
    string under ["id"] and ["DataRow"] under the discriminator, and
    otherwise only null, booleans, numbers and strings under keys that do not
    start with an underscore, [fromJSON(json).toJSON()] is [json] itself. *)
Theorem toJSON_fromJSON (json : gmap string JSONValue) s x :
  json !! "id" = Some (JString x) →
  json !! "_DATA_CLASS_NAME_" = Some (JString "DataRow") →
  (∀ k j, json !! k = Some j → k ≠ "_DATA_CLASS_NAME_" →
          DataRow.startsWithUnderscore k = false ∧ DataRow.primitiveJSON j = true) →
  ∃ row s1 s2,
    DataRow.fromJSON json s = Some (row, s1) ∧
    DataRow.toJSON row s1 = Some (json, s2).
Proof.
  intros Hid Hclass Hfields.
  destruct (fromJSON_effect json s)
    as (row & s1 & o & obj & Hfrom & Hat & Hido & _ & _ & Hobj).
  rewrite Hid in Hido.
  destruct (toJSON_run _ _ _ _ Hat) as (json' & Hto & Hjson').
  eexists row, s1, _. split; [done|]. rewrite Hto. do 2 f_equal.
  apply map_eq. intros k. rewrite Hjson'. unfold DataRow.header. rewrite Hido.
  destruct (String.eqb_spec k "__proto__") as [->|Hproto].
  { rewrite lookup_insert_ne, lookup_singleton_ne by done.
    destruct (json !! "__proto__") as [j|] eqn:Hj; [|done].
    by destruct (Hfields _ _ Hj). }
  destruct (decide (k = "id")) as [->|Hk].
  { rewrite Hobj. cbn. by rewrite lookup_insert_eq, Hid. }
  destruct (decide (k = "_DATA_CLASS_NAME_")) as [->|Hd].
  { rewrite Hobj. cbn. by rewrite lookup_insert_ne, lookup_singleton_eq, Hclass. }
  assert (String.eqb k "id" = false) as Hkb by by apply String.eqb_neq.
  rewrite Hobj, Hkb, orb_false_r.
  destruct (json !! k) as [j|] eqn:Hj.
  - destruct (Hfields _ _ Hj Hd) as [-> Hprim]. cbn. by destruct j.
  - destruct (DataRow.startsWithUnderscore k); cbn;
      rewrite lookup_insert_ne by done; by rewrite lookup_singleton_ne.
Qed.

(** X17: [toJSON()] only reads the row. It publishes no event and leaves
    the row's fields and columns as they were, and a second call returns the
    same object. *)
Theorem toJSON_reads_only s row o obj :
  DataRow.row_at s row o obj →
  ∃ json s1 s2,
    DataRow.toJSON row s = Some (json, s1) ∧
    DataRow.row_at s1 row o obj ∧
    DataRow.rowObjs s1 = DataRow.rowObjs s ∧
    DataRow.published s1 = DataRow.published s ∧
    DataRow.toJSON row s1 = Some (json, s2).
Proof.
  intros Hat.
  destruct (toJSON_run _ _ _ _ Hat) as (json & Hto & Hjson).
  set (c := fresh (dom (DataRow.colObjs s))) in *.
  set (s1 := DataRow.with_colObjs <[c := obj]> s) in *.
  assert (c ≠ DataRow.columns o) as Hne
    by (apply fresh_ref_ne; destruct Hat as [_ Hc]; by rewrite Hc).
  assert (DataRow.row_at s1 row o obj) as Hat1 by by apply row_at_other.
  destruct (toJSON_run _ _ _ _ Hat1) as (json1 & Hagain & Hjson1).
  assert (json1 = json) as ->
    by (apply map_eq; intros k; by rewrite Hjson, Hjson1).
  by eexists json, s1, _.
Qed.

(** X18: the typed getters of a row built without a converter. Each of
    them returns what the new default converter makes of what [getColumn]
    gives for the key, and leaves the store as it was. For ["id"] that is
    [undefined]; for any other key it is what reading the key off the source
    mapping gives: the value held there, or for a key the mapping does not
    have [undefined] or, when the key is a name of [Object.prototype], the
    inherited member. *)
Theorem typed_getters_of_new_row s c0 src :
  DataRow.colObjs s !! c0 = Some src →
  ∃ row s1,
    DataRow.new (Some c0) None s = Some (row, s1) ∧
    ∀ k,
      let value := if String.eqb k "id" then DataRow.Own DataRow.VUndefined
                   else DataRow.get src k in
      DataRow.getColumn row k s1 = Some (value, s1) ∧
      DataRow.getColumnAsBoolean row k s1 =
        Some (DataRow.asBoolean newDataConverter value, s1) ∧
      DataRow.getColumnAsDataTable row k s1 =
        Some (DataRow.asDataTable newDataConverter value, s1) ∧
      DataRow.getColumnAsDate row k s1 =
        Some (DataRow.asDate newDataConverter value, s1) ∧
      DataRow.getColumnAsNumber row k s1 =
        Some (DataRow.asNumber newDataConverter value, s1) ∧
      DataRow.getColumnAsString row k s1 =
        Some (DataRow.asString newDataConverter value, s1).
Proof.
  intros Hsrc.
  destruct (new_effect s c0 None src Hsrc)
    as (row & s1 & c & Hnew & _ & _ & Hrows & Hcols & _).
  set (o := DataRow.mkRow c newDataConverter
              match src !! "id" with
              | Some (DataRow.VString x) => x
              | _ => uniqueKeyOf (DataRow.idCounter s)
              end []) in *.
  assert (DataRow.row_at s1 row o (delete "id" src)) as Hat.
  { split; [by rewrite Hrows, lookup_insert_eq|].
    cbn. by rewrite Hcols, lookup_insert_eq. }
  exists row, s1. split; [done|]. intros k value.
  assert (DataRow.get (delete "id" src) k = value) as Hvalue.
  { subst value. unfold DataRow.get.
    destruct (String.eqb_spec k "id") as [->|Hk].
    - by rewrite lookup_delete_eq.
    - by rewrite lookup_delete_ne. }
  unfold DataRow.getColumnAsBoolean, DataRow.getColumnAsDataTable,
    DataRow.getColumnAsDate, DataRow.getColumnAsNumber, DataRow.getColumnAsString.
  rewrite !(bind_run _ _ _ _ _ (getRow_run _ _ _ _ Hat)).
  rewrite !(bind_run _ _ _ _ _ (getColumn_run _ _ _ _ k Hat)).
  rewrite (getColumn_run _ _ _ _ k Hat). by rewrite Hvalue.
Qed.

End Rebuilding.

(** ** The properties at the sample rows *)
Section Instances.
#[local] Existing Instance Sample.imports.
#[local] Existing Instance Sample.table.
#[local] Existing Instance Sample.coercions.

Lemma clear_assigns_length_witness :
  ∃ s1 n,
    DataRow.clear 1 Sample.store = Some (true, s1) ∧
    DataRow.row_at s1 1 Sample.rowFields
      (<["length" := DataRow.VNumber 0]> Sample.rowColumns) ∧
    DataRow.getColumnCount 1 s1 = Some (n, s1) ∧
    (1 ≤ n)%nat ∧ (size Sample.rowColumns ≤ n)%nat ∧
    DataRow.idOf s1 1 = DataRow.idOf Sample.store 1.
Proof.
  apply (clear_assigns_length Sample.store 1 Sample.rowFields Sample.rowColumns).
  - split; reflexivity.
  - reflexivity.
Defined.

(** The failing input of C1: the row with the one column [a = 1] has two
    columns after [clear()], [a] still holding 1. *)
Example clear_keeps_columns :
  fst <$> (cleared ← DataRow.clear 1;
           count ← DataRow.getColumnCount 1;
           a ← DataRow.getColumn 1 "a";
           mret (cleared, count, a)) Sample.store =
    Some (true, 2%nat, DataRow.Own (DataRow.VNumber 1)).
Proof. vm_compute. reflexivity. Qed.

Lemma id_key_rejected_witness :
  DataRow.row_at Sample.store 1 Sample.rowFields Sample.rowColumns ∧
  DataRow.insertColumn 1 "id" (DataRow.VString "x") Sample.store =
    Some (false, Sample.store) ∧
  DataRow.updateColumn 1 "id" (DataRow.VString "x") Sample.store =
    Some (false, Sample.store) ∧
  DataRow.deleteColumn 1 "id" Sample.store = Some (false, Sample.store).
Proof.
  assert (DataRow.row_at Sample.store 1 Sample.rowFields Sample.rowColumns) as Hat
    by (split; reflexivity).
  split; [exact Hat|].
  exact (id_key_rejected Sample.store 1 Sample.rowFields Sample.rowColumns
           (DataRow.VString "x") Hat).
Defined.



Lemma deleteColumn_absent_witness :
  ∃ s1,
    DataRow.deleteColumn 1 "b" Sample.store = Some (true, s1) ∧
    DataRow.published s1 =
      [(1%positive, DataRow.mkEvent "deleteColumn"
                      (DataRow.ColumnArgs "b" (DataRow.Own DataRow.VUndefined)));
       (1%positive, DataRow.mkEvent "afterDeleteColumn"
                      (DataRow.ColumnArgs "b" (DataRow.Own DataRow.VUndefined)))] ∧
    DataRow.colObjs s1 = DataRow.colObjs Sample.store ∧
    DataRow.rowObjs s1 = DataRow.rowObjs Sample.store ∧
    DataRow.row_at s1 1 Sample.rowFields Sample.rowColumns.
Proof.
  apply (deleteColumn_absent Sample.store 1 Sample.rowFields Sample.rowColumns "b").
  - split; reflexivity.
  - discriminate.
  - apply not_elem_of_keys. reflexivity.
  - reflexivity.
Defined.

(** The same at a key the row inherits: both events of [deleteColumn("toString")]
    carry the inherited member. *)
Example deleteColumn_inherited_payload :
  (λ result, DataRow.published result.2) <$>
    DataRow.deleteColumn 1 "toString" Sample.store =
    Some [(1%positive, DataRow.mkEvent "deleteColumn"
                         (DataRow.ColumnArgs "toString" (DataRow.Inherited "toString")));
          (1%positive, DataRow.mkEvent "afterDeleteColumn"
                         (DataRow.ColumnArgs "toString" (DataRow.Inherited "toString")))].
Proof. vm_compute. reflexivity. Qed.



Lemma id_never_a_column_witness :
  (∃ row s1 ks,
     DataRow.new (Some 1%positive) None Sample.store = Some (row, s1) ∧
     DataRow.getColumnKeys row s1 = Some (ks, s1) ∧
     "id" ∉ ks) ∧
  (∃ b s1 ks,
     DataRow.perform 1 DataRow.Clear Sample.store = Some (b, s1) ∧
     DataRow.getColumnKeys 1 s1 = Some (ks, s1) ∧
     ("id" ∉ ks) ∧
     DataRow.idOf s1 1 = DataRow.idOf Sample.store 1).
Proof.
  destruct (@id_never_a_column Sample.imports) as [Hnew Hop]. split.
  - apply Hnew. intros c [= <-]. by eexists.
  - apply (Hop Sample.store 1%positive Sample.rowFields Sample.rowColumns).
    + split; reflexivity.
    + apply not_elem_of_keys. reflexivity.
Defined.

Lemma cancelled_mutation_not_applied_witness :
  (∃ unsubscribe s1 s2 ks,
     DataRow.on 1 "insertColumn" Sample.cancelAll Sample.guarded =
       Some (unsubscribe, s1) ∧
     DataRow.insertColumn 1 "b" (DataRow.VNumber 2) s1 = Some (false, s2) ∧
     DataRow.getColumnKeys 1 s2 = Some (ks, s2) ∧
     ("b" ∉ ks) ∧
     DataRow.colObjs s2 = DataRow.colObjs Sample.guarded) ∧
  DataRow.defaultPrevented Sample.guardedFields Sample.rowColumns
    (DataRow.preEvent Sample.rowColumns
       (DataRow.UpdateColumn "a" (DataRow.VNumber 5))) = true ∧
  (∃ s1,
     DataRow.perform 1 (DataRow.UpdateColumn "a" (DataRow.VNumber 5)) Sample.guarded =
       Some (false, s1) ∧
     DataRow.colObjs s1 = DataRow.colObjs Sample.guarded ∧
     DataRow.rowObjs s1 = DataRow.rowObjs Sample.guarded ∧
     DataRow.published s1 =
       [(1%positive, DataRow.mkEvent "updateColumn"
                       (DataRow.ColumnArgs "a" (DataRow.Own (DataRow.VNumber 5))))]).
Proof.
  destruct (cancelled_mutation_not_applied Sample.guarded 1 Sample.guardedFields
              Sample.rowColumns "b" (DataRow.VNumber 2) Sample.cancelAll)
    as [Hinsert Hany].
  - split; reflexivity.
  - discriminate.
  - apply not_elem_of_keys. reflexivity.
  - reflexivity.
  - split; [exact Hinsert|]. split; [reflexivity|].
    apply (Hany (DataRow.UpdateColumn "a" (DataRow.VNumber 5))); reflexivity.
Defined.

Lemma getAllColumns_is_a_copy_witness :
  ∃ c s1,
    DataRow.getAllColumns 1 Sample.store = Some (c, s1) ∧
    DataRow.readObj c s1 = Some (Sample.rowColumns, s1) ∧
    ∀ ms, ∃ s2,
      DataRow.mutateAll c ms s1 = Some (tt, s2) ∧
      DataRow.row_at s2 1 Sample.rowFields Sample.rowColumns ∧
      ∀ k, DataRow.getColumn 1 k s2 = Some (DataRow.get Sample.rowColumns k, s2) ∧
           DataRow.getColumn 1 k Sample.store =
             Some (DataRow.get Sample.rowColumns k, Sample.store).
Proof.
  apply (getAllColumns_is_a_copy Sample.store 1 Sample.rowFields Sample.rowColumns).
  split; reflexivity.
Defined.



Lemma fromJSON_toJSON_witness :
  ∃ json s1 row' s2 o' obj',
    DataRow.toJSON 1 Sample.dated = Some (json, s1) ∧
    DataRow.fromJSON json s1 = Some (row', s2) ∧
    DataRow.row_at s2 row' o' obj' ∧
    DataRow.id o' = "r" ∧
    ∀ k, obj' !! k =
           if DataRow.startsWithUnderscore k then None
           else DataRow.decayed <$> Sample.datedColumns !! k.
Proof.
  apply (fromJSON_toJSON Sample.dated 1 Sample.rowFields Sample.datedColumns).
  - split; reflexivity.
  - apply not_elem_of_keys. reflexivity.
  - intros k value Hk. unfold Sample.datedColumns in Hk.
    apply lookup_insert_Some in Hk as [[_ <-]|[_ Hk]]; [reflexivity|].
    apply lookup_singleton_Some in Hk as [_ <-]. reflexivity.
Defined.

(** C2 as it is stated fails on a column whose key starts with an
    underscore: the row of [Sample.hidden] has the single column [_a = 1], a
    number, and the row [fromJSON] rebuilds from its [toJSON()] has no column
    at all. *)
Lemma underscore_key_lost_in_round_trip :
  fst <$> DataRow.getColumnKeys 1 Sample.hidden = Some ["_a"] ∧
  fst <$> DataRow.getColumn 1 "_a" Sample.hidden =
    Some (DataRow.Own (DataRow.VNumber 1)) ∧
  fst <$> (json ← DataRow.toJSON 1;
           row' ← DataRow.fromJSON json;
           DataRow.getColumnKeys row') Sample.hidden = Some [] ∧
  fst <$> (json ← DataRow.toJSON 1;
           row' ← DataRow.fromJSON json;
           DataRow.getColumn row' "_a") Sample.hidden =
    Some (DataRow.Own DataRow.VUndefined).
Proof. repeat split; vm_compute; reflexivity. Qed.


Lemma updateColumn_overwrites_witness :
  ∃ s1 n,
    DataRow.updateColumn 1 "a" (DataRow.VNumber 5) Sample.store = Some (true, s1) ∧
    DataRow.getColumn 1 "a" s1 = Some (DataRow.Own (DataRow.VNumber 5), s1) ∧
    DataRow.getColumnCount 1 s1 = Some (n, s1) ∧
    DataRow.getColumnCount 1 Sample.store = Some (n, Sample.store).
Proof.
  apply (updateColumn_overwrites Sample.store 1 Sample.rowFields Sample.rowColumns
           "a" (DataRow.VNumber 5)).
  - split; reflexivity.
  - discriminate.
  - apply elem_of_keys. by eexists.
  - reflexivity.
Defined.

Lemma insertColumn_then_deleteColumn_witness :
  ∃ s1 s2,
    DataRow.insertColumn 1 "b" (DataRow.VNumber 2) Sample.store = Some (true, s1) ∧
    DataRow.deleteColumn 1 "b" s1 = Some (true, s2) ∧
    DataRow.row_at s2 1 Sample.rowFields Sample.rowColumns ∧
    DataRow.colObjs s2 = DataRow.colObjs Sample.store.
Proof.
  apply (insertColumn_then_deleteColumn Sample.store 1 Sample.rowFields
           Sample.rowColumns "b" (DataRow.VNumber 2)).
  - split; reflexivity.
  - discriminate.
  - discriminate.
  - apply not_elem_of_keys. reflexivity.
  - reflexivity.
  - reflexivity.
Defined.

Lemma other_columns_untouched_witness :
  ∃ b s1 obj1,
    DataRow.perform 1 (DataRow.UpdateColumn "b" (DataRow.VNumber 2)) Sample.store =
      Some (b, s1) ∧
    DataRow.row_at s1 1 Sample.rowFields obj1 ∧
    obj1 !! "a" = Some (DataRow.VNumber 1) ∧
    DataRow.getColumn 1 "a" s1 = Some (DataRow.Own (DataRow.VNumber 1), s1).
Proof.
  destruct (other_columns_untouched Sample.store 1 Sample.rowFields Sample.rowColumns
              (DataRow.UpdateColumn "b" (DataRow.VNumber 2)) "a")
    as (b & s1 & obj1 & Hrun & Hat & Hsame & Hread).
  - split; reflexivity.
  - discriminate.
  - exists b, s1, obj1. split; [exact Hrun|]. split; [exact Hat|].
    split; [exact Hsame|]. apply Hread. discriminate.
Defined.


Lemma events_of_a_call_witness :
  ∃ b s1,
    DataRow.perform 1 DataRow.Clear Sample.store = Some (b, s1) ∧
    DataRow.published s1 =
      (DataRow.published Sample.store ++
         (if DataRow.rejected Sample.rowColumns DataRow.Clear then []
          else if DataRow.defaultPrevented Sample.rowFields Sample.rowColumns
                    (DataRow.preEvent Sample.rowColumns DataRow.Clear)
               then [(1%positive, DataRow.preEvent Sample.rowColumns DataRow.Clear)]
               else [(1%positive, DataRow.preEvent Sample.rowColumns DataRow.Clear);
                     (1%positive, DataRow.postEvent Sample.rowColumns DataRow.Clear)]))%list ∧
    DataRow.args (DataRow.postEvent Sample.rowColumns DataRow.Clear) =
      DataRow.args (DataRow.preEvent Sample.rowColumns DataRow.Clear).
Proof.
  apply (events_of_a_call Sample.store 1 Sample.rowFields Sample.rowColumns).
  split; reflexivity.
Defined.


Lemma insertColumn_then_updateColumn_witness :
  ∃ s1 s2 n,
    DataRow.insertColumn 1 "b" (DataRow.VNumber 2) Sample.store = Some (true, s1) ∧
    DataRow.updateColumn 1 "b" (DataRow.VNumber 3) s1 = Some (true, s2) ∧
    DataRow.getColumn 1 "b" s2 = Some (DataRow.Own (DataRow.VNumber 3), s2) ∧
    DataRow.getColumnCount 1 Sample.store = Some (n, Sample.store) ∧
    DataRow.getColumnCount 1 s2 = Some (S n, s2).
Proof.
  apply (insertColumn_then_updateColumn Sample.store 1 Sample.rowFields
           Sample.rowColumns "b" (DataRow.VNumber 2) (DataRow.VNumber 3)).
  - split; reflexivity.
  - discriminate.
  - discriminate.
  - apply not_elem_of_keys. reflexivity.
  - reflexivity.
  - reflexivity.
Defined.

Lemma new_adopts_string_id_witness :
  ∃ row s1 o,
    DataRow.new (Some 2%positive) None Sample.caller = Some (row, s1) ∧
    DataRow.row_at s1 row o (delete "id" Sample.callerColumns) ∧
    DataRow.id o = "x" ∧
    DataRow.converter o = default newDataConverter None ∧
    DataRow.hcEvents o = [] ∧
    DataRow.getColumn row "id" s1 = Some (DataRow.Own DataRow.VUndefined, s1) ∧
    DataRow.idCounter s1 = DataRow.idCounter Sample.caller ∧
    DataRow.published s1 = DataRow.published Sample.caller.
Proof.
  apply (new_adopts_string_id Sample.caller 2 None Sample.callerColumns "x").
  - reflexivity.
  - reflexivity.
Defined.

Lemma new_generates_id_witness :
  ∃ row s1 o,
    DataRow.new (Some 3%positive) None Sample.caller = Some (row, s1) ∧
    DataRow.row_at s1 row o (delete "id" Sample.numberedColumns) ∧
    DataRow.id o = uniqueKeyOf (DataRow.idCounter Sample.caller) ∧
    DataRow.idCounter s1 = S (DataRow.idCounter Sample.caller) ∧
    DataRow.getColumn row "id" s1 = Some (DataRow.Own DataRow.VUndefined, s1).
Proof.
  apply (new_generates_id Sample.caller 3 None Sample.numberedColumns).
  - reflexivity.
  - intros x. discriminate.
Defined.

Lemma sample_keys_never_repeat : Inj (=) (=) (uniqueKeyOf (Imports := Sample.imports)).
Proof.
  intros n m Heq. cbn in Heq.
  apply (inj (String.app "highcharts-")) in Heq. by apply (inj pretty).
Qed.

Lemma successive_generated_ids_differ_witness :
  ∃ row1 s1 row2 s2 id1 id2,
    DataRow.new (Some 1%positive) None Sample.caller = Some (row1, s1) ∧
    DataRow.new (Some 3%positive) None s1 = Some (row2, s2) ∧
    row1 ≠ row2 ∧
    DataRow.idOf s2 row1 = Some id1 ∧
    DataRow.idOf s2 row2 = Some id2 ∧
    id1 ≠ id2.
Proof.
  apply (successive_generated_ids_differ Sample.caller 1 3 None None
           Sample.rowColumns Sample.numberedColumns).
  - exact sample_keys_never_repeat.
  - reflexivity.
  - reflexivity.
  - intros x. discriminate.
  - intros x. discriminate.
Defined.

Lemma new_does_not_alias_witness :
  ∃ row s1 o,
    DataRow.new (Some 2%positive) None Sample.caller = Some (row, s1) ∧
    DataRow.row_at s1 row o (delete "id" Sample.callerColumns) ∧
    DataRow.readObj 2 s1 = Some (Sample.callerColumns, s1) ∧
    (∀ ms, ∃ s2,
       DataRow.mutateAll 2 ms s1 = Some (tt, s2) ∧
       DataRow.row_at s2 row o (delete "id" Sample.callerColumns)) ∧
    (∀ op, ∃ b s2,
       DataRow.perform row op s1 = Some (b, s2) ∧
       DataRow.readObj 2 s2 = Some (Sample.callerColumns, s2)).
Proof.
  apply (new_does_not_alias Sample.caller 2 None Sample.callerColumns).
  reflexivity.
Defined.

Lemma rows_are_isolated_witness :
  ∃ row2 s1,
    DataRow.new (Some 2%positive) None Sample.caller = Some (row2, s1) ∧
    row2 ≠ 1%positive ∧
    DataRow.row_at s1 1 Sample.rowFields Sample.rowColumns ∧
    ∀ op, ∃ b s2,
      DataRow.perform row2 op s1 = Some (b, s2) ∧
      DataRow.row_at s2 1 Sample.rowFields Sample.rowColumns.
Proof.
  apply (rows_are_isolated Sample.caller 2 None Sample.callerColumns 1
           Sample.rowFields Sample.rowColumns).
  - reflexivity.
  - split; reflexivity.
Defined.

Lemma round_trip_every_column_witness :
  ∃ json s1 row' s2 o' obj',
    DataRow.toJSON 1 Sample.mixed = Some (json, s1) ∧
    DataRow.fromJSON json s1 = Some (row', s2) ∧
    DataRow.row_at s2 row' o' obj' ∧
    DataRow.id o' = "r" ∧
    ∀ k, obj' !! k =
           if DataRow.startsWithUnderscore k then None
           else Sample.mixedColumns !! k ≫= DataRow.restored.
Proof.
  apply (round_trip_every_column Sample.mixed 1 Sample.rowFields
           Sample.mixedColumns).
  - split; reflexivity.
  - apply not_elem_of_keys. reflexivity.
  - intros k table _. by eexists.
Defined.

Lemma toJSON_reads_only_witness :
  ∃ json s1 s2,
    DataRow.toJSON 1 Sample.store = Some (json, s1) ∧
    DataRow.row_at s1 1 Sample.rowFields Sample.rowColumns ∧
    DataRow.rowObjs s1 = DataRow.rowObjs Sample.store ∧
    DataRow.published s1 = DataRow.published Sample.store ∧
    DataRow.toJSON 1 s1 = Some (json, s2).
Proof.
  apply (toJSON_reads_only Sample.store 1 Sample.rowFields Sample.rowColumns).
  split; reflexivity.
Defined.

Lemma typed_getters_of_new_row_witness :
  ∃ row s1,
    DataRow.new (Some 2%positive) None Sample.caller = Some (row, s1) ∧
    ∀ k,
      let value := if String.eqb k "id" then DataRow.Own DataRow.VUndefined
                   else DataRow.get Sample.callerColumns k in
      DataRow.getColumn row k s1 = Some (value, s1) ∧
      DataRow.getColumnAsBoolean row k s1 =
        Some (DataRow.asBoolean newDataConverter value, s1) ∧
      DataRow.getColumnAsDataTable row k s1 =
        Some (DataRow.asDataTable newDataConverter value, s1) ∧
      DataRow.getColumnAsDate row k s1 =
        Some (DataRow.asDate newDataConverter value, s1) ∧
      DataRow.getColumnAsNumber row k s1 =
        Some (DataRow.asNumber newDataConverter value, s1) ∧
      DataRow.getColumnAsString row k s1 =
        Some (DataRow.asString newDataConverter value, s1).
Proof.
  apply (typed_getters_of_new_row Sample.caller 2 Sample.callerColumns).
  reflexivity.
Defined.

Lemma round_trip_is_stable_witness :
  ∃ json s1 row1 s2 o1 obj1 json1 s3 row2 s4 o2 obj2,
    DataRow.toJSON 1 Sample.dated = Some (json, s1) ∧
    DataRow.fromJSON json s1 = Some (row1, s2) ∧
    DataRow.row_at s2 row1 o1 obj1 ∧
    DataRow.toJSON row1 s2 = Some (json1, s3) ∧
    DataRow.fromJSON json1 s3 = Some (row2, s4) ∧
    DataRow.row_at s4 row2 o2 obj2 ∧
    DataRow.id o2 = DataRow.id o1 ∧
    obj2 = obj1.
Proof.
  apply (round_trip_is_stable Sample.dated 1 Sample.rowFields Sample.datedColumns).
  - split; reflexivity.
  - apply not_elem_of_keys. reflexivity.
  - intros k table Hk. unfold Sample.datedColumns in Hk.
    apply lookup_insert_Some in Hk as [[_ [=]]|[_ Hk]].
    apply lookup_singleton_Some in Hk as [_ [=]].
Defined.

Lemma toJSON_fromJSON_witness :
  ∃ row s1 s2,
    DataRow.fromJSON Sample.rowJSON Sample.store = Some (row, s1) ∧
    DataRow.toJSON row s1 = Some (Sample.rowJSON, s2).
Proof.
  apply (toJSON_fromJSON Sample.rowJSON Sample.store "r").
  - reflexivity.
  - reflexivity.
  - intros k j Hk Hd. unfold Sample.rowJSON in Hk.
    apply lookup_insert_Some in Hk as [[<- _]|[_ Hk]]; [done|].
    apply lookup_insert_Some in Hk as [[<- <-]|[_ Hk]]; [done|].
    apply lookup_singleton_Some in Hk as [<- <-]. done.
Defined.

Lemma deleteColumn_then_insertColumn_witness :
  ∃ s1 s2,
    DataRow.deleteColumn 1 "a" Sample.store = Some (true, s1) ∧
    DataRow.insertColumn 1 "a" (DataRow.VNumber 9) s1 = Some (true, s2) ∧
    DataRow.row_at s2 1 Sample.rowFields
      (<["a" := DataRow.VNumber 9]> Sample.rowColumns).
Proof.
  apply (deleteColumn_then_insertColumn Sample.store 1 Sample.rowFields
           Sample.rowColumns "a" (DataRow.VNumber 1) (DataRow.VNumber 9)).
  - split; reflexivity.
  - discriminate.
  - discriminate.
  - reflexivity.
  - reflexivity.
  - reflexivity.
Defined.

End Instances.
